(** * Open-Interface: action dispatch and the LangGraph control loop

    A shallow embedding of [app/interpreter.py] (the [Interpreter] class) and
    of [langgraph_interface/{tools,nodes,state,graph}.py], followed by the
    properties of the dispatcher and of the control loop.

    Python values are untyped JSON-like data, so they are embedded as one
    inductive type [Value]; every operation that Python resolves at run time
    ([in], [.get], indexing, iteration, [.startswith]) is a function that
    returns either a result or the exception Python raises.  The outside
    world (the pyautogui backend, the planner model, the argument binding of
    LangChain's [StructuredTool], the interrupt flag carried by the state)
    is a record of oracles, [Runtime]; theorems quantify over it and
    examples fix one. *)

From Stdlib Require Import String Ascii List ZArith QArith Bool Lia.
From Stdlib Require Import DecimalString.
Import ListNotations.
Local Open Scope string_scope.
Local Open Scope Z_scope.

(** ** Python values *)

Module Py.

#[warnings="-register-all"]
Inductive Value : Type :=
| VNone
| VBool (b : bool)
| VInt (z : Z)
| VFloat (q : Q)
| VStr (s : string)
| VList (l : list Value)
| VDict (d : list (string * Value)).

(** A [dict] keeps insertion order ([list(parameters.values())] depends on
    it), hence an association list; keys are unique in a Python dict and
    lookup returns the binding of the key. *)
Definition Dict := list (string * Value).

(** An exception object: its class name and [str(e)]. *)
Record Exn : Type := mkExn { exn_type : string; exn_msg : string }.

Definition AttributeError (what : string) : Exn := mkExn "AttributeError" what.
Definition TypeError (what : string) : Exn := mkExn "TypeError" what.
Definition KeyError (key : string) : Exn := mkExn "KeyError" ("'" ++ key ++ "'").

(** [bool(v)]: Python truthiness. *)
Definition truthy (v : Value) : bool :=
  match v with
  | VNone => false
  | VBool b => b
  | VInt z => negb (z =? 0)
  | VFloat q => negb (Qnum q =? 0)
  | VStr s => negb (s =? "")%string
  | VList l => match l with [] => false | _ => true end
  | VDict d => match d with [] => false | _ => true end
  end.

(** [a or b] *)
Definition py_or (a b : Value) : Value := if truthy a then a else b.

Definition is_none (v : Value) : bool :=
  match v with VNone => true | _ => false end.

Fixpoint dict_get (d : Dict) (k : string) : option Value :=
  match d with
  | [] => None
  | (k', v) :: d' => if (k' =? k)%string then Some v else dict_get d' k
  end.

Definition dict_has (d : Dict) (k : string) : bool :=
  match dict_get d k with Some _ => true | None => false end.

Definition dict_values (d : Dict) : list Value := map snd d.

(** *** Strings *)

(** [s.startswith(p)] *)
Definition startswith (s p : string) : bool := String.prefix p s.

(** [s.replace(old, new)] for a non-empty [old]: every non-overlapping
    occurrence, scanning from the left.  [skip] counts the characters of a
    matched occurrence that are still to be dropped. *)
Fixpoint replace_from (old new : string) (skip : nat) (s : string) : string :=
  match s with
  | EmptyString => EmptyString
  | String c s' =>
      match skip with
      | S k => replace_from old new k s'
      | O =>
          if String.prefix old s
          then new ++ replace_from old new (Nat.pred (String.length old)) s'
          else String c (replace_from old new O s')
      end
  end.

Definition replace (s old new : string) : string := replace_from old new O s.

(** [s.lower()] on ASCII text. *)
Definition lower_ascii (c : ascii) : ascii :=
  let n := nat_of_ascii c in
  if (Nat.leb 65 n && Nat.leb n 90)%bool then ascii_of_nat (n + 32) else c.

Fixpoint lower (s : string) : string :=
  match s with
  | EmptyString => EmptyString
  | String c s' => String (lower_ascii c) (lower s')
  end.

(** [sub in s] for strings. *)
Fixpoint contains (sub s : string) : bool :=
  if String.prefix sub s then true
  else match s with
       | EmptyString => false
       | String _ s' => contains sub s'
       end.

(** [str(z)] for an [int]. *)
Definition str_of_int (z : Z) : string := NilZero.string_of_int (Z.to_int z).

(** *** Dynamically resolved operations *)

(** [k in v] *)
Definition py_in (k : string) (v : Value) : Exn + bool :=
  match v with
  | VDict d => inr (dict_has d k)
  | VList l =>
      inr (existsb (fun e => match e with
                             | VStr s => (s =? k)%string
                             | _ => false
                             end) l)
  | VStr s => inr (contains k s)
  | _ => inl (TypeError "argument is not iterable")
  end.

(** [v.get(k, default)] *)
Definition py_get (v : Value) (k : string) (default : Value) : Exn + Value :=
  match v with
  | VDict d => inr (match dict_get d k with Some x => x | None => default end)
  | _ => inl (AttributeError "object has no attribute 'get'")
  end.

(** [v[k]] with a string key *)
Definition py_getitem (v : Value) (k : string) : Exn + Value :=
  match v with
  | VDict d => match dict_get d k with
               | Some x => inr x
               | None => inl (KeyError k)
               end
  | VList _ => inl (TypeError "list indices must be integers or slices, not str")
  | VStr _ => inl (TypeError "string indices must be integers, not 'str'")
  | _ => inl (TypeError "object is not subscriptable")
  end.

(** [list(v.values())] *)
Definition py_values (v : Value) : Exn + list Value :=
  match v with
  | VDict d => inr (dict_values d)
  | _ => inl (AttributeError "object has no attribute 'values'")
  end.

(** [**v] in a call *)
Definition py_kwargs (v : Value) : Exn + Dict :=
  match v with
  | VDict d => inr d
  | _ => inl (TypeError "argument after ** must be a mapping")
  end.

(** The receiver of [.startswith]/[.replace] must be a [str]. *)
Definition py_as_str (v : Value) : Exn + string :=
  match v with
  | VStr s => inr s
  | _ => inl (AttributeError "object has no attribute 'startswith'")
  end.

Fixpoint chars (s : string) : list Value :=
  match s with
  | EmptyString => []
  | String c s' => VStr (String c EmptyString) :: chars s'
  end.

(** The items a [for] loop draws from [v]. *)
Definition py_iter (v : Value) : Exn + list Value :=
  match v with
  | VList l => inr l
  | VStr s => inr (chars s)
  | VDict d => inr (map (fun kv => VStr (fst kv)) d)
  | _ => inl (TypeError "object is not iterable")
  end.

(** [sep.join(items)]: every item must be a [str]. *)
Fixpoint py_join (sep : string) (items : list Value) : Exn + string :=
  match items with
  | [] => inr ""
  | VStr s :: rest =>
      match rest with
      | [] => inr s
      | _ => match py_join sep rest with
             | inr t => inr (s ++ sep ++ t)
             | inl e => inl e
             end
      end
  | _ :: _ => inl (TypeError "sequence item: expected str instance")
  end.

End Py.
Export Py.

(** ** Effects: a state-and-exception monad

    A computation reads and writes a store of type [S] and either returns a
    value or raises a Python exception; the store keeps what was written
    before the exception, as side effects do. *)

Definition M (S A : Type) : Type := S -> (Exn + A) * S.

Definition ret {S A} (a : A) : M S A := fun s => (inr a, s).

Definition raise {S A} (e : Exn) : M S A := fun s => (inl e, s).

Definition bind {S A B} (m : M S A) (k : A -> M S B) : M S B :=
  fun s => match m s with
           | (inr a, s') => k a s'
           | (inl e, s') => (inl e, s')
           end.

(** [try: m  except Exception as e: h e] *)
Definition try_except {S A} (m : M S A) (h : Exn -> M S A) : M S A :=
  fun s => match m s with
           | (inr a, s') => (inr a, s')
           | (inl e, s') => h e s'
           end.

(** A pure operation that may raise. *)
Definition lift {S A} (r : Exn + A) : M S A := fun s => (r, s).

(** Run a computation on a component of a larger store. *)
Definition zoom {S T A} (get : T -> S) (set : S -> T -> T) (m : M S A) : M T A :=
  fun t => let (r, s') := m (get t) in (r, set s' t).

Declare Scope py_scope.
Delimit Scope py_scope with py.
Notation "x <- m ;; k" := (bind m (fun x => k))
  (at level 61, m at next level, right associativity) : py_scope.
Notation "m ;; k" := (bind m (fun _ => k))
  (at level 61, right associativity) : py_scope.
Local Open Scope py_scope.

(** [for x in l: body x] *)
Fixpoint for_each {S A} (l : list A) (body : A -> M S unit) : M S unit :=
  match l with
  | [] => ret tt
  | x :: rest => body x ;; for_each rest body
  end.

(** ** The outside world *)

(** What a primitive call is applied to. *)
Inductive Callee : Type :=
| Pyautogui (attr : string)   (* getattr(pyautogui, attr) *)
| TimeSleep                   (* time.sleep *)
| ScreenCapture.              (* Screen().get_screenshot_in_base64() *)

(** One primitive call: positional and keyword arguments as written at the
    call site. *)
Record Call : Type := mkCall {
  callee : Callee;
  args : list Value;
  kwargs : Dict
}.

(** The oracles.  [backend h c] is the outcome of call [c] after the calls
    [h]; [bind_*] is the argument binding [StructuredTool.invoke] performs
    from the signature of each tool function (it raises on input that does
    not fit); [repr_of] is [str] of floats and containers; [planner k] is the
    answer to the [k]-th call of [get_instructions_for_objective];
    [interrupt_flag k] is the value of [interrupt_requested] at its [k]-th
    read. *)
Record Runtime : Type := mkRuntime {
  has_attr : string -> bool;
  backend : list Call -> Call -> Exn + Value;
  bind_click : Value -> Exn + (Value * Value * Value);
  bind_type_text : Value -> Exn + (Value * Value);
  bind_press_key : Value -> Exn + (Value * Value);
  bind_hotkey : Value -> Exn + list Value;
  bind_sleep : Value -> Exn + Value;
  bind_take_screenshot : Value -> Exn + unit;
  repr_of : Value -> string;
  planner : nat -> string -> Z -> Exn + Value;
  interrupt_flag : nat -> bool
}.

(** The device monad: its store is the trace of primitive calls so far.  A
    call is recorded whether it returns or raises. *)
Definition Dev (A : Type) : Type := M (list Call) A.

Definition call (rt : Runtime) (c : Call) : Dev Value :=
  fun h => (backend rt h c, (h ++ [c])%list).

(** [str(v)] *)
Definition py_str (rt : Runtime) (v : Value) : string :=
  match v with
  | VStr s => s
  | VInt z => str_of_int z
  | VBool true => "True"
  | VBool false => "False"
  | VNone => "None"
  | _ => repr_of rt v
  end.

(** [len(v)] *)
Definition py_len (v : Value) : Exn + Z :=
  match v with
  | VStr s => inr (Z.of_nat (String.length s))
  | VList l => inr (Z.of_nat (List.length l))
  | VDict d => inr (Z.of_nat (List.length d))
  | _ => inl (TypeError "object has no len()")
  end.

(** The first truthy [p.get(k)] of [p.get(k1) or p.get(k2) or ...], else the
    last one. *)
Fixpoint get_first_truthy (p : Value) (ks : list string) : Exn + Value :=
  match ks with
  | [] => inr VNone
  | k :: ks' =>
      match py_get p k VNone with
      | inl e => inl e
      | inr v =>
          match ks' with
          | [] => inr v
          | _ => if truthy v then inr v else get_first_truthy p ks'
          end
      end
  end.

(** [k1 in p or k2 in p or ...] *)
Fixpoint in_any (ks : list string) (p : Value) : Exn + bool :=
  match ks with
  | [] => inr false
  | k :: ks' =>
      match py_in k p with
      | inl e => inl e
      | inr true => inr true
      | inr false => in_any ks' p
      end
  end.

(** ** app/interpreter.py *)

Module Interpreter.

(** What [print] writes, one constructor per [print] statement of the class;
    the fields are the values interpolated into the text. *)
Inductive Line : Type :=
| NowPerforming (function_name parameters justification : Value)
| ErrorExecuting (e : Exn)
| JsonReceived (json_command : Dict)
| WhatWeExtracted
| ExtractedFunctionName (function_name : Value)
| ExtractedParameters (parameters : Value)
| ClickingAt (x y clicks : Value)
| InvalidClickParameters (parameters : Value)
| NoSuchFunction (function_name : string).

Record Store : Type := mkStore {
  calls : list Call;          (* primitive calls issued *)
  stdout : list Line;
  status_queue : list Value   (* self.status_queue *)
}.

Definition print (l : Line) : M Store unit :=
  fun s => (inr tt, mkStore (calls s) (stdout s ++ [l])%list (status_queue s)).

Definition put (v : Value) : M Store unit :=
  fun s => (inr tt, mkStore (calls s) (stdout s) (status_queue s ++ [v])%list).

Definition device {A} (m : Dev A) : M Store A :=
  zoom calls (fun c s => mkStore c (stdout s) (status_queue s)) m.

(** Lines 64-67: the prefix test guards a [replace] of every occurrence. *)
Definition clean_name (function_name : string) : string :=
  if startswith function_name "pyautogui." then replace function_name "pyautogui." ""
  else if startswith function_name "time." then replace function_name "time." ""
  else function_name.

Section Dispatch.
Variable rt : Runtime.

(** [function_to_call = getattr(pyautogui, function_name)] applied. *)
Definition function_to_call (function_name : string) (a : list Value) (k : Dict)
  : M Store unit :=
  device (call rt (mkCall (Pyautogui function_name) a k)) ;; ret tt.

Definition do_write (function_name : string) (parameters : Value) : M Store unit :=
  string_to_write <- lift (get_first_truthy parameters ["string"; "text"; "message"]) ;;
  interval <- lift (py_get parameters "interval" (VFloat (1 # 10))) ;;
  function_to_call function_name [string_to_write] [("interval", interval)].

Definition do_press (function_name : string) (parameters : Value) : M Store unit :=
  keys_to_press <- lift (get_first_truthy parameters ["keys"; "key"]) ;;
  presses <- lift (py_get parameters "presses" (VInt 1)) ;;
  interval <- lift (py_get parameters "interval" (VFloat (1 # 5))) ;;
  match keys_to_press with
  | VList keys =>
      for_each keys (fun key =>
        function_to_call function_name [key]
          [("presses", presses); ("interval", interval)])
  | _ =>
      function_to_call function_name [keys_to_press]
        [("presses", presses); ("interval", interval)]
  end.

Definition do_hotkey (function_name : string) (parameters : Value) : M Store unit :=
  has_keys <- lift (py_in "keys" parameters) ;;
  if (has_keys : bool) then
    keys <- lift (py_getitem parameters "keys") ;;
    match keys with
    | VList l => function_to_call function_name l []
    | _ => function_to_call function_name [keys] []
    end
  else
    keys <- lift (py_values parameters) ;;
    function_to_call function_name keys [].

Definition do_click (function_name : string) (parameters : Value) : M Store unit :=
  x <- lift (py_get parameters "x" VNone) ;;
  y <- lift (py_get parameters "y" VNone) ;;
  clicks <- lift (py_get parameters "clicks" (VInt 1)) ;;
  if (negb (is_none x) && negb (is_none y))%bool then
    print (ClickingAt x y clicks) ;;
    function_to_call function_name [x; y] [("clicks", clicks)]
  else
    print (InvalidClickParameters parameters).

(** Lines 69-121: the branch taken for a cleaned name. *)
Definition call_by_name (function_name : string) (parameters : Value) : M Store unit :=
  is_sleep <- (if (function_name =? "sleep")%string
               then v <- lift (get_first_truthy parameters ["secs"; "seconds"]) ;;
                    ret (truthy v)
               else ret false) ;;
  if (is_sleep : bool) then
    sleep_time <- lift (get_first_truthy parameters ["secs"; "seconds"]) ;;
    device (call rt (mkCall TimeSleep [sleep_time] [])) ;; ret tt
  else if has_attr rt function_name then
    is_write <- (if (function_name =? "write")%string
                 then lift (in_any ["string"; "text"; "message"] parameters)
                 else ret false) ;;
    if (is_write : bool) then do_write function_name parameters
    else
      is_press <- (if (function_name =? "press")%string
                   then lift (in_any ["keys"; "key"] parameters)
                   else ret false) ;;
      if (is_press : bool) then do_press function_name parameters
      else if (function_name =? "hotkey")%string then do_hotkey function_name parameters
      else if (function_name =? "click")%string then do_click function_name parameters
      else
        kw <- lift (py_kwargs parameters) ;;
        function_to_call function_name [] kw
  else
    print (NoSuchFunction function_name).

Definition execute_function (function_name parameters : Value) : M Store unit :=
  device (call rt (mkCall (Pyautogui "press") [VStr "command"]
                     [("interval", VFloat (1 # 5))])) ;;
  device (call rt (mkCall TimeSleep [VFloat (1 # 10)] [])) ;;
  name <- lift (py_as_str function_name) ;;
  call_by_name (clean_name name) parameters.

Definition process_command (json_command : Dict) : M Store bool :=
  function_name <- lift (py_getitem (VDict json_command) "function") ;;
  parameters <- lift (py_get (VDict json_command) "parameters" (VDict [])) ;;
  human_readable_justification <-
    lift (py_get (VDict json_command) "human_readable_justification" VNone) ;;
  print (NowPerforming function_name parameters human_readable_justification) ;;
  put human_readable_justification ;;
  try_except
    (execute_function function_name parameters ;; ret true)
    (fun e =>
       print (ErrorExecuting e) ;;
       print (JsonReceived json_command) ;;
       print WhatWeExtracted ;;
       print (ExtractedFunctionName function_name) ;;
       print (ExtractedParameters parameters) ;;
       ret false).

Fixpoint process_commands (json_commands : list Dict) : M Store bool :=
  match json_commands with
  | [] => ret true
  | command :: rest =>
      success <- process_command command ;;
      if (success : bool) then process_commands rest
      else ret false   (* End early and return *)
  end.

End Dispatch.

Definition empty_store : Store := mkStore [] [] [].

End Interpreter.

(** ** langgraph_interface/tools.py *)

Module Tools.

Section PyAutoGUITools.
Variable rt : Runtime.

Definition click_tool (x y clicks : Value) : Dev string :=
  try_except
    (call rt (mkCall (Pyautogui "click") [x; y] [("clicks", clicks)]) ;;
     ret ("Clicked at (" ++ py_str rt x ++ ", " ++ py_str rt y ++ ") with "
            ++ py_str rt clicks ++ " clicks"))
    (fun e => ret ("Click failed: " ++ exn_msg e)).

Definition type_text (text interval : Value) : Dev string :=
  try_except
    (call rt (mkCall (Pyautogui "write") [text] [("interval", interval)]) ;;
     ret ("Typed: " ++ py_str rt text))
    (fun e => ret ("Type failed: " ++ exn_msg e)).

Definition press_key (key presses : Value) : Dev string :=
  try_except
    (match key with
     | VList keys =>
         call rt (mkCall (Pyautogui "hotkey") keys []) ;;
         joined <- lift (py_join "+" keys) ;;
         ret ("Pressed hotkey: " ++ joined)
     | _ =>
         call rt (mkCall (Pyautogui "press") [key] [("presses", presses)]) ;;
         ret ("Pressed key: " ++ py_str rt key ++ " (" ++ py_str rt presses
                ++ " times)")
     end)
    (fun e => ret ("Key press failed: " ++ exn_msg e)).

Definition hotkey (keys : list Value) : Dev string :=
  try_except
    (call rt (mkCall (Pyautogui "hotkey") keys []) ;;
     joined <- lift (py_join "+" keys) ;;
     ret ("Pressed hotkey: " ++ joined))
    (fun e => ret ("Hotkey failed: " ++ exn_msg e)).

Definition sleep_tool (seconds : Value) : Dev string :=
  call rt (mkCall TimeSleep [seconds] []) ;;
  ret ("Slept for " ++ py_str rt seconds ++ " seconds").

Definition take_screenshot : Dev string :=
  try_except
    (screenshot_data <- call rt (mkCall ScreenCapture [] []) ;;
     n <- lift (py_len screenshot_data) ;;
     ret ("Screenshot taken: " ++ str_of_int n ++ " characters"))
    (fun e => ret ("Screenshot failed: " ++ exn_msg e)).

(** The entries of the list [create_pyautogui_tools] returns, by the
    function each [StructuredTool] wraps. *)
Inductive Tool : Type :=
| Click | TypeText | PressKey | Hotkey | Sleep | TakeScreenshot.

Definition create_pyautogui_tools : list Tool :=
  [Click; TypeText; PressKey; Hotkey; Sleep; TakeScreenshot].

(** [tool.invoke(input)]: bind the input to the function's parameters, then
    call the function. *)
Definition invoke (tool : Tool) (input : Value) : Dev string :=
  match tool with
  | Click =>
      a <- lift (bind_click rt input) ;;
      let '(x, y, clicks) := a in click_tool x y clicks
  | TypeText =>
      a <- lift (bind_type_text rt input) ;;
      let '(text, interval) := a in type_text text interval
  | PressKey =>
      a <- lift (bind_press_key rt input) ;;
      let '(key, presses) := a in press_key key presses
  | Hotkey =>
      keys <- lift (bind_hotkey rt input) ;;
      hotkey keys
  | Sleep =>
      seconds <- lift (bind_sleep rt input) ;;
      sleep_tool seconds
  | TakeScreenshot =>
      lift (bind_take_screenshot rt input) ;;
      take_screenshot
  end.

(** [tool.func] applied to the unpacked list of keys: the wrapped function,
    called directly.  It is used on the hotkey tool only. *)
Definition func_varargs (tool : Tool) (keys : list Value) : Dev string :=
  match tool with
  | Hotkey => hotkey keys
  | _ => raise (TypeError "unexpected positional arguments")
  end.

(** [tools[i]] *)
Definition tool_at (i : nat) : Exn + Tool :=
  match nth_error create_pyautogui_tools i with
  | Some t => inr t
  | None => inl (mkExn "IndexError" "list index out of range")
  end.

End PyAutoGUITools.

End Tools.

(** ** langgraph_interface/state.py, nodes.py and graph.py *)

Module LangGraph.

Import Tools.

(** The messages of the conversation; the prompt texts of the system and
    human messages are not part of the model. *)
Inductive Message : Type :=
| SystemMessage
| HumanMessage
| AIMessage (content : Value).

(** The dict [execution_node] appends for one dispatched step. *)
Record ExecutionResult : Type := mkResult {
  function : Value;
  parameters : Value;
  justification : Value;
  result : string;
  success : bool
}.

(** [OpenInterfaceState].  [interrupt_requested] is read through the
    runtime's oracle (no node writes it); the settings fields only feed the
    prompt. *)
Record OpenInterfaceState : Type := mkState {
  messages : list Message;
  user_request : string;
  step_count : Z;
  max_steps : Z;
  current_instructions : Value;
  execution_results : list ExecutionResult;
  screenshot_data : option string;
  is_complete : bool;
  error_message : option string
}.

(** The partial dict a node returns: a key is either absent or carries the
    new value. *)
Record Update : Type := mkUpdate {
  upd_messages : list Message;
  upd_current_instructions : option Value;
  upd_execution_results : option (list ExecutionResult);
  upd_step_count : option Z;
  upd_screenshot_data : option string;
  upd_is_complete : option bool;
  upd_error_message : option string
}.

Definition overwrite {A} (old : A) (new : option A) : A :=
  match new with Some a => a | None => old end.

(** How the graph merges a node's update into the state: [messages] is
    declared with the [add_messages] reducer and grows; every other key is
    declared without a reducer, so a returned value replaces the old one. *)
Definition apply_update (st : OpenInterfaceState) (u : Update) : OpenInterfaceState :=
  mkState
    (messages st ++ upd_messages u)%list
    (user_request st)
    (overwrite (step_count st) (upd_step_count u))
    (max_steps st)
    (overwrite (current_instructions st) (upd_current_instructions u))
    (overwrite (execution_results st) (upd_execution_results u))
    (match upd_screenshot_data u with Some d => Some d | None => screenshot_data st end)
    (overwrite (is_complete st) (upd_is_complete u))
    (match upd_error_message u with Some m => Some m | None => error_message st end).

(** [AIMessage(content=v)]: the constructor validates its content, declared
    as a string or a list of strings and dicts, and raises on anything
    else. *)
Definition ai_message (content : Value) : Exn + Message :=
  match content with
  | VStr _ => inr (AIMessage content)
  | VList items =>
      if forallb (fun item => match item with
                              | VStr _ | VDict _ => true
                              | _ => false
                              end) items
      then inr (AIMessage content)
      else inl (mkExn "ValidationError" "Input should be a valid string")
  | _ => inl (mkExn "ValidationError" "Input should be a valid string")
  end.

(** [bool(state.get("error_message"))] *)
Definition has_error (st : OpenInterfaceState) : bool :=
  match error_message st with
  | Some m => negb (m =? "")%string
  | None => false
  end.

(** The store of a run: the device trace, the number of planner calls made
    and the number of reads of the interrupt flag. *)
Record World : Type := mkWorld {
  device_calls : list Call;
  plan_calls : nat;
  flag_reads : nat
}.

Definition on_device {A} (m : Dev A) : M World A :=
  zoom device_calls (fun c w => mkWorld c (plan_calls w) (flag_reads w)) m.

Section Nodes.
Variable rt : Runtime.

(** [self.model.get_instructions_for_objective(request, step)] *)
Definition get_instructions_for_objective (request : string) (step : Z) : M World Value :=
  fun w => (planner rt (plan_calls w) request step,
            mkWorld (device_calls w) (S (plan_calls w)) (flag_reads w)).

(** [state.get("interrupt_requested", False)].  The source reads the key of
    the state it was handed; [execute_request] sets the key to [False] and no
    node writes it, so within the program every read gives the same value.
    The model reads an oracle indexed by the number of reads, which covers
    that case (a constant oracle) and is used in that generality by the
    lemmas that hold for every behaviour of the flag; what is said about
    runs of the program is said for constant oracles. *)
Definition interrupt_requested : M World bool :=
  fun w => (inr (interrupt_flag rt (flag_reads w)),
            mkWorld (device_calls w) (plan_calls w) (S (flag_reads w))).

Definition tool_mapping : list (string * nat) :=
  [("click", 0); ("type_text", 1); ("write", 1); ("press_key", 2);
   ("press", 2); ("hotkey", 3); ("sleep", 4); ("take_screenshot", 5)]%nat.

Fixpoint mapping_get (m : list (string * nat)) (k : string) : option nat :=
  match m with
  | [] => None
  | (k', i) :: m' => if (k' =? k)%string then Some i else mapping_get m' k
  end.

Definition name_in (names : list string) (s : string) : bool :=
  existsb (fun n => (s =? n)%string) names.

Definition _execute_step (function_name parameters : Value) : Dev string :=
  name <- lift (py_as_str function_name) ;;
  let function_name :=
    if startswith name "pyautogui." then replace name "pyautogui." "" else name in
  match mapping_get tool_mapping function_name with
  | None => ret ("Unknown function: " ++ function_name)
  | Some tool_index =>
      try_except
        (tool <- lift (tool_at tool_index) ;;
         if name_in ["write"; "type_text"] function_name then
           has_text <- lift (py_in "text" parameters) ;;
           params <- (if (has_text : bool) then
                        text <- lift (py_getitem parameters "text") ;;
                        interval <- lift (py_get parameters "interval" (VFloat (1 # 20))) ;;
                        ret (VDict [("text", text); ("interval", interval)])
                      else ret parameters) ;;
           invoke rt tool params
         else if name_in ["press"; "press_key"] function_name then
           has_keys <- lift (py_in "keys" parameters) ;;
           params <- (if (has_keys : bool) then
                        keys <- lift (py_getitem parameters "keys") ;;
                        presses <- lift (py_get parameters "presses" (VInt 1)) ;;
                        ret (VDict [("key", keys); ("presses", presses)])
                      else ret parameters) ;;
           invoke rt tool params
         else if (function_name =? "hotkey")%string then
           has_keys <- lift (py_in "keys" parameters) ;;
           keys <- (if (has_keys : bool) then lift (py_getitem parameters "keys")
                    else ret VNone) ;;
           match has_keys, keys with
           | true, VList l => func_varargs rt tool l
           | _, _ => invoke rt tool parameters
           end
         else if (function_name =? "sleep")%string then
           has_seconds <- lift (py_in "seconds" parameters) ;;
           params <- (if (has_seconds : bool) then
                        seconds <- lift (py_getitem parameters "seconds") ;;
                        ret (VDict [("seconds", seconds)])
                      else
                        has_secs <- lift (py_in "secs" parameters) ;;
                        if (has_secs : bool) then
                          secs <- lift (py_getitem parameters "secs") ;;
                          ret (VDict [("seconds", secs)])
                        else ret (VDict [("seconds", VInt 1)])) ;;
           invoke rt tool params
         else
           invoke rt tool parameters)
        (fun e => ret ("Execution failed: " ++ exn_msg e))
  end.

Definition no_instructions : Update :=
  mkUpdate [] None None None None (Some true) (Some "No instructions to execute").

Definition interrupted : Update :=
  mkUpdate [] None None None None (Some true) (Some "Execution interrupted by user").

(** The [for step in ...] loop of [execution_node]; [execution_results] is
    the local list built so far. *)
Fixpoint execution_loop (step_count : Z) (steps : list Value)
    (execution_results : list ExecutionResult) : M World Update :=
  match steps with
  | [] =>
      ret (mkUpdate [] None (Some execution_results) (Some (step_count + 1))
             None None None)
  | step :: rest =>
      stop <- interrupt_requested ;;
      if (stop : bool) then ret interrupted
      else
        function_name <- lift (py_get step "function" (VStr "")) ;;
        parameters <- lift (py_get step "parameters" (VDict [])) ;;
        justification <-
          lift (py_get step "human_readable_justification" (VStr "")) ;;
        result <- on_device (_execute_step function_name parameters) ;;
        execution_loop step_count rest
          (execution_results ++
             [mkResult function_name parameters justification result
                (negb (contains "failed" (lower result)))])%list
  end.

Definition planning_node (state : OpenInterfaceState) : M World Update :=
  (if step_count state =? 0 then
     tool <- lift (tool_at 4) ;;
     on_device (invoke rt tool (VDict [])) ;; ret tt
   else ret tt) ;;
  try_except
    (instructions <-
       get_instructions_for_objective (user_request state) (step_count state) ;;
     ret (mkUpdate [SystemMessage; HumanMessage] (Some instructions)
            None None None None None))
    (fun e =>
       ret (mkUpdate [] None None None None (Some true)
              (Some ("Planning failed: " ++ exn_msg e)))).

Definition execution_node (state : OpenInterfaceState) : M World Update :=
  if negb (truthy (current_instructions state)) then ret no_instructions
  else
    steps <- lift (py_get (current_instructions state) "steps" VNone) ;;
    if negb (truthy steps) then ret no_instructions
    else
      items <- lift (py_iter steps) ;;
      execution_loop (step_count state) items [].

Definition validation_node (state : OpenInterfaceState) : M World Update :=
  let instructions := current_instructions state in
  done <- lift (py_get instructions "done" VNone) ;;
  if truthy done then
    content <- lift (py_getitem instructions "done") ;;
    message <- lift (ai_message content) ;;
    ret (mkUpdate [message] None None None None (Some true) None)
  else if max_steps state <=? step_count state then
    ret (mkUpdate [] None None None None (Some true)
           (Some "Maximum steps exceeded"))
  else
    ret (mkUpdate [] None None None None (Some false) None).

Definition screenshot_node (state : OpenInterfaceState) : M World Update :=
  try_except
    (tool <- lift (tool_at 4) ;;
     screenshot_result <- on_device (invoke rt tool (VDict [])) ;;
     ret (mkUpdate [] None None None (Some screenshot_result) None None))
    (fun e =>
       ret (mkUpdate [] None None None None None
              (Some ("Screenshot failed: " ++ exn_msg e)))).

Definition response_node (state : OpenInterfaceState) : M World Update :=
  response <-
    (if has_error state then
       ret (VStr ("Task completed with error: "
                    ++ match error_message state with Some m => m | None => "" end))
     else
       lift (py_get (current_instructions state) "done"
               (VStr "Task completed successfully"))) ;;
  message <- lift (ai_message response) ;;
  ret (mkUpdate [message] None None None None (Some true) None).

(** *** graph.py *)

Inductive Route : Type := Continue | Complete.

Definition _should_continue (state : OpenInterfaceState) : M World Route :=
  if is_complete state then ret Complete
  else if has_error state then ret Complete
  else
    stop <- interrupt_requested ;;
    if (stop : bool) then ret Complete else ret Continue.

Inductive Node : Type := planning | execution | validation | screenshot | response.

Definition run_node (n : Node) (state : OpenInterfaceState) : M World Update :=
  match n with
  | planning => planning_node state
  | execution => execution_node state
  | validation => validation_node state
  | screenshot => screenshot_node state
  | response => response_node state
  end.

(** The edges of [_build_graph]; [None] is [END].  (The "tools" node has no
    incoming edge.) *)
Definition next_node (n : Node) (state : OpenInterfaceState) : M World (option Node) :=
  match n with
  | planning => ret (Some execution)
  | execution => ret (Some validation)
  | validation =>
      r <- _should_continue state ;;
      ret (Some (match r with Continue => screenshot | Complete => response end))
  | screenshot => ret (Some planning)
  | response => ret None
  end.

(** [self.graph.invoke]: run nodes along the edges, merging each update into
    the state.  The compiled graph runs at most [limit] node executions and
    raises when the limit is reached before [END]. *)
Fixpoint graph_invoke (limit : nat) (n : Node) (state : OpenInterfaceState)
  : M World OpenInterfaceState :=
  match limit with
  | O => raise (mkExn "GraphRecursionError" "Recursion limit reached")
  | S limit' =>
      u <- run_node n state ;;
      let state' := apply_update state u in
      nxt <- next_node n state' ;;
      match nxt with
      | None => ret state'
      | Some n' => graph_invoke limit' n' state'
      end
  end.

Definition initial_state (user_request : string) (max_steps : Z) : OpenInterfaceState :=
  mkState [] user_request 0 max_steps VNone [] None false None.

(** What [execute_request] returns: the final state, or the two-key dict of
    its [except] branch. *)
Inductive Outcome : Type :=
| Final (state : OpenInterfaceState)
| GraphFailed (error_message : string).

Definition execute_request (limit : nat) (user_request : string) (max_steps : Z)
  : M World Outcome :=
  try_except
    (state <- graph_invoke limit planning (initial_state user_request max_steps) ;;
     ret (Final state))
    (fun e => ret (GraphFailed ("Graph execution failed: " ++ exn_msg e))).

End Nodes.

Definition new_world : World := mkWorld [] 0 0.

End LangGraph.

(** ** A reference runtime for examples

    A backend in which pyautogui's fail-safe trips on a click at the screen
    corner (0, 0) and every other call returns; tools bind the dictionary
    keys named after their parameters and fill in the declared defaults. *)

Module Reference.

Definition pyautogui_names : list string :=
  ["click"; "write"; "press"; "hotkey"; "moveTo"; "scroll"; "sleep"].

Definition ref_has_attr (name : string) : bool :=
  existsb (fun n => (n =? name)%string) pyautogui_names.

Definition ref_backend (h : list Call) (c : Call) : Exn + Value :=
  match callee c, args c with
  | Pyautogui "click", [VInt 0; VInt 0] =>
      inl (mkExn "FailSafeException" "PyAutoGUI fail-safe triggered")
  | ScreenCapture, _ => inr (VStr "iVBORw0KGgo=")
  | _, _ => inr VNone
  end.

Definition missing (field : string) : Exn :=
  mkExn "ValidationError" (field ++ ": Field required").

Definition required (input : Value) (field : string) : Exn + Value :=
  match input with
  | VDict d => match dict_get d field with
               | Some v => inr v
               | None => inl (missing field)
               end
  | _ => inl (mkExn "ValidationError" "Input should be a valid dictionary")
  end.

Definition optional (input : Value) (field : string) (default : Value) : Value :=
  match input with
  | VDict d => match dict_get d field with Some v => v | None => default end
  | _ => default
  end.

Definition ref_bind_click (input : Value) : Exn + (Value * Value * Value) :=
  match required input "x", required input "y" with
  | inr x, inr y => inr (x, y, optional input "clicks" (VInt 1))
  | inl e, _ => inl e
  | _, inl e => inl e
  end.

Definition ref_bind_type_text (input : Value) : Exn + (Value * Value) :=
  match required input "text" with
  | inr text => inr (text, optional input "interval" (VFloat (1 # 20)))
  | inl e => inl e
  end.

Definition ref_bind_press_key (input : Value) : Exn + (Value * Value) :=
  match required input "key" with
  | inr key => inr (key, optional input "presses" (VInt 1))
  | inl e => inl e
  end.

Definition ref_bind_hotkey (input : Value) : Exn + list Value :=
  match required input "keys" with
  | inr (VList l) => inr l
  | inr _ => inl (mkExn "ValidationError" "keys: Input should be a valid list")
  | inl e => inl e
  end.

Definition ref_bind_sleep (input : Value) : Exn + Value :=
  inr (optional input "seconds" (VFloat 1)).

Definition ref_bind_take_screenshot (input : Value) : Exn + unit := inr tt.

Definition ref_repr (v : Value) : string :=
  match v with
  | VFloat q => str_of_int (Qnum q) ++ "/" ++ str_of_int (Zpos (Qden q))
  | _ => "<object>"
  end.

Definition runtime (planner : nat -> string -> Z -> Exn + Value)
    (interrupt_flag : nat -> bool) : Runtime :=
  mkRuntime ref_has_attr ref_backend ref_bind_click ref_bind_type_text
    ref_bind_press_key ref_bind_hotkey ref_bind_sleep ref_bind_take_screenshot
    ref_repr planner interrupt_flag.

Definition never : nat -> bool := fun _ => false.

(** A step in the wire format. *)
Definition step (function_name : string) (parameters : Dict) (why : string) : Value :=
  VDict [("function", VStr function_name); ("parameters", VDict parameters);
         ("human_readable_justification", VStr why)].

Definition plan (steps : list Value) : Value := VDict [("steps", VList steps)].

Definition plan_done (steps : list Value) (done : string) : Value :=
  VDict [("steps", VList steps); ("done", VStr done)].

Definition click_10_20 : Value :=
  step "click" [("x", VInt 10); ("y", VInt 20)] "open the menu".
Definition write_hi : Value := step "write" [("text", VStr "hi")] "greet".
Definition press_enter : Value := step "press" [("key", VStr "enter")] "confirm".

(** A planner that always answers with the same plan. *)
Definition constant_planner (p : Value) : nat -> string -> Z -> Exn + Value :=
  fun _ _ _ => inr p.

(** The runtime of the Interpreter examples (no planner, no flag). *)
Definition plain : Runtime :=
  runtime (constant_planner (plan [])) never.

(** As [plain], with a backend on which every call returns. *)
Definition calm : Runtime :=
  mkRuntime ref_has_attr (fun _ _ => inr VNone) ref_bind_click ref_bind_type_text
    ref_bind_press_key ref_bind_hotkey ref_bind_sleep ref_bind_take_screenshot
    ref_repr (constant_planner (plan [])) never.

(** A command of the Interpreter in the wire format. *)
Definition command (function_name : string) (parameters : Dict) : Dict :=
  [("function", VStr function_name); ("parameters", VDict parameters)].

(** A planner that never reports completion. *)
Definition never_done : Runtime :=
  runtime (constant_planner (plan [press_enter])) never.

(** Round one plans a click, round two a key press and completion. *)
Definition two_rounds : Runtime :=
  runtime (fun k _ _ =>
             match k with
             | O => inr (plan [click_10_20])
             | _ => inr (plan_done [press_enter] "all done")
             end) never.

(** The planner answers once and then fails. *)
Definition planner_fails_second : Runtime :=
  runtime (fun k _ _ =>
             match k with
             | O => inr (plan [press_enter])
             | _ => inl (mkExn "ConnectionError" "planner unreachable")
             end) never.

(** As [never_done], with a backend whose one-second pause raises once some
    call has been made, so that the tool call of [screenshot_node] fails. *)
Definition capture_fails : Runtime :=
  mkRuntime ref_has_attr
    (fun h c => match callee c, h with
                | TimeSleep, _ :: _ => inl (mkExn "OSError" "capture unavailable")
                | _, _ => ref_backend h c
                end)
    ref_bind_click ref_bind_type_text ref_bind_press_key ref_bind_hotkey
    ref_bind_sleep ref_bind_take_screenshot ref_repr
    (constant_planner (plan [press_enter])) never.

End Reference.

(** ** Notions used by the statements *)

(** A primitive call raised between the device traces [h] and [h']. *)
Definition raised_between (rt : Runtime) (h h' : list Call) : Prop :=
  exists c e, h' = (h ++ [c])%list /\ backend rt h c = inl e.

(** No primitive call ever raises. *)
Definition quiet (rt : Runtime) : Prop :=
  forall h c, exists v, backend rt h c = inr v.

(** The warm-up of [Interpreter.execute_function]. *)
Definition warm_up : list Call :=
  [mkCall (Pyautogui "press") [VStr "command"] [("interval", VFloat (1 # 5))];
   mkCall TimeSleep [VFloat (1 # 10)] []].

(** [d.get(k, default)] on a dict. *)
Definition param_or (d : Dict) (k : string) (default : Value) : Value :=
  match dict_get d k with Some v => v | None => default end.

(** [pyautogui.press(key, presses=presses, interval=interval)] *)
Definition press_with (presses interval key : Value) : Call :=
  mkCall (Pyautogui "press") [key] [("presses", presses); ("interval", interval)].

(** [pyautogui.click(x, y, clicks=clicks)] *)
Definition click_at (x y clicks : Value) : Call :=
  mkCall (Pyautogui "click") [x; y] [("clicks", clicks)].

(** The Interpreter's store after the calls [cs] have been issued. *)
Definition issued (st : Interpreter.Store) (cs : list Call) : Interpreter.Store :=
  Interpreter.mkStore (Interpreter.calls st ++ cs)%list
    (Interpreter.stdout st) (Interpreter.status_queue st).

Module LoopFacts.
Import LangGraph.

(** A step the execution loop can dispatch without raising: an object whose
    ["function"], when present, is a string. *)
Definition well_formed_step (step : Value) : bool :=
  match step with
  | VDict d => match dict_get d "function" with
               | None => true
               | Some (VStr _) => true
               | Some _ => false
               end
  | _ => false
  end.

(** The name under which [_execute_step] looks a function up. *)
Definition stripped (name : string) : string :=
  if startswith name "pyautogui." then replace name "pyautogui." "" else name.

(** [r] is the record of dispatching [step]. *)
Definition records (step : Value) (r : ExecutionResult) : Prop :=
  py_get step "function" (VStr "") = inr (function r) /\
  py_get step "parameters" (VDict []) = inr (parameters r) /\
  py_get step "human_readable_justification" (VStr "") = inr (justification r).

(** Step [step] was dispatched from device trace [h] to [h'] and recorded
    as [r]. *)
Definition dispatched (rt : Runtime) (step : Value) (r : ExecutionResult)
    (h h' : list Call) : Prop :=
  records step r /\
  _execute_step rt (function r) (parameters r) h = (inr (result r), h') /\
  success r = negb (contains "failed" (lower (result r))).

(** The steps were dispatched one after the other, each recorded once, in
    order. *)
Inductive dispatched_in_order (rt : Runtime)
  : list Value -> list ExecutionResult -> list Call -> list Call -> Prop :=
| dispatched_none h : dispatched_in_order rt [] [] h h
| dispatched_next step steps r rs h h1 h2 :
    dispatched rt step r h h1 ->
    dispatched_in_order rt steps rs h1 h2 ->
    dispatched_in_order rt (step :: steps) (r :: rs) h h2.

(** The results [execution_node] hands to the graph ([[]] when it returns no
    ["execution_results"] key or raises). *)
Definition recorded (rt : Runtime) (state : OpenInterfaceState) (w : World)
  : list ExecutionResult :=
  match execution_node rt state w with
  | (inr u, _) => match upd_execution_results u with
                  | Some rs => rs
                  | None => []
                  end
  | (inl _, _) => []
  end.

(** A state whose current plan is [instructions]. *)
Definition planned (instructions : Value) : OpenInterfaceState :=
  mkState [] "" 0 10 instructions [] None false None.

(** The configurations a run passes through: the node about to run, the
    state it receives and the store. *)
Inductive reachable (rt : Runtime) (request : string) (budget : Z)
  : Node -> OpenInterfaceState -> World -> Prop :=
| reach_start :
    reachable rt request budget planning (initial_state request budget) new_world
| reach_step n st w u w' n' w'' :
    reachable rt request budget n st w ->
    run_node rt n st w = (inr u, w') ->
    next_node rt n (apply_update st u) w' = (inr (Some n'), w'') ->
    reachable rt request budget n' (apply_update st u) w''.

(** The run started at node [n] stops after at most [k] node executions,
    at [END] with a final state or in a node that raises, with outcome [r]
    and store [w']. *)
Inductive runs_to (rt : Runtime)
  : nat -> Node -> OpenInterfaceState -> World
    -> Exn + OpenInterfaceState -> World -> Prop :=
| runs_raise k n st w e w' :
    run_node rt n st w = (inl e, w') ->
    runs_to rt (S k) n st w (inl e) w'
| runs_end k n st w u w' w'' :
    run_node rt n st w = (inr u, w') ->
    next_node rt n (apply_update st u) w' = (inr None, w'') ->
    runs_to rt (S k) n st w (inr (apply_update st u)) w''
| runs_on k n st w u w' n' w'' r w3 :
    run_node rt n st w = (inr u, w') ->
    next_node rt n (apply_update st u) w' = (inr (Some n'), w'') ->
    runs_to rt k n' (apply_update st u) w'' r w3 ->
    runs_to rt (S k) n st w r w3.

(** What the planner must answer for a round to run to its end without
    completing the task: an object with a non-empty list of well-formed
    steps and no truthy ["done"]. *)
Definition unfinished_plan (instructions : Value) : Prop :=
  exists d steps,
    instructions = VDict d /\
    dict_get d "steps" = Some (VList steps) /\
    steps <> [] /\
    forallb well_formed_step steps = true /\
    truthy (param_or d "done" VNone) = false.

(** The planner always answers, and never with a finished plan. *)
Definition planner_never_done (rt : Runtime) : Prop :=
  forall k request step, exists instructions,
    planner rt k request step = inr instructions /\ unfinished_plan instructions.

(** The interrupt flag is never found set. *)
Definition never_interrupted (rt : Runtime) : Prop :=
  forall k, interrupt_flag rt k = false.

(** The call [self.tools[4].invoke({})] of [planning_node] and
    [screenshot_node] returns. *)
Definition pause_returns (rt : Runtime) : Prop :=
  forall h, exists out h', Tools.invoke rt Tools.Sleep (VDict []) h = (inr out, h').

(** [m] leaves the device alone. *)
Definition stateless {A} (m : Dev A) : Prop := forall h, exists r, m h = (r, h).

(** [m] flags failure: whenever a primitive call raised while [m] ran and
    [m] still returned an output, the output contains "failed". *)
Definition flags_failure (rt : Runtime) (m : Dev string) : Prop :=
  forall h r h',
    m h = (r, h') -> raised_between rt h h' ->
    match r with
    | inr out => contains "failed" (lower out) = true
    | inl _ => True
    end.

(** The flag is computed from the text of the result. *)
Definition flag_from_text (r : ExecutionResult) : Prop :=
  success r = negb (contains "failed" (lower (result r))).

End LoopFacts.

(** ** More scenarios and notions *)

Module Scenarios.
Import Reference.

(** A backend on which every call raises. *)
Definition stuck : Runtime :=
  mkRuntime ref_has_attr
    (fun _ _ => inl (mkExn "FailSafeException" "PyAutoGUI fail-safe triggered"))
    ref_bind_click ref_bind_type_text ref_bind_press_key ref_bind_hotkey
    ref_bind_sleep ref_bind_take_screenshot ref_repr
    (constant_planner (plan [])) never.

(** The planner reports completion along with one step. *)
Definition done_at_once : Runtime :=
  runtime (constant_planner (plan_done [press_enter] "all done")) never.

(** The planner reports completion and plans no step. *)
Definition done_without_steps : Runtime :=
  runtime (constant_planner (plan_done [] "all done")) never.

(** The planner cannot be reached. *)
Definition planner_down : Runtime :=
  runtime (fun _ _ _ => inl (mkExn "ConnectionError" "planner unreachable")) never.

(** Three steps are planned and the flag is found set at its third read. *)
Definition interrupted_after_two : Runtime :=
  runtime (constant_planner (plan [click_10_20; write_hi; press_enter]))
    (fun k => Nat.leb 2 k).


(** Three steps are queued; the state carries the interrupt flag unset, as
    [execute_request] has it. *)
Definition interrupt_unset : Runtime :=
  runtime (constant_planner (plan [click_10_20; write_hi; press_enter])) never.

End Scenarios.


(** The commands were attempted one after the other from store [st], with
    the outcomes [bs], and left the store [st']. *)
Inductive attempted (rt : Runtime)
  : list Dict -> Interpreter.Store -> list bool -> Interpreter.Store -> Prop :=
| attempted_none st : attempted rt [] st [] st
| attempted_next c cs st b st1 bs st' :
    Interpreter.process_command rt c st = (inr b, st1) ->
    attempted rt cs st1 bs st' ->
    attempted rt (c :: cs) st (b :: bs) st'.

(** The justification [process_command] queues for a command. *)
Definition justification_of (json_command : Dict) : Value :=
  param_or json_command "human_readable_justification" VNone.

(** [m] leaves the status queue alone. *)
Definition keeps_queue {A} (m : M Interpreter.Store A) : Prop :=
  forall s r s', m s = (r, s') ->
                 Interpreter.status_queue s' = Interpreter.status_queue s.

(** Between [w] and [w'] the device was left alone or paused once with
    [time.sleep]. *)
Definition only_paused (w w' : LangGraph.World) : Prop :=
  LangGraph.device_calls w' = LangGraph.device_calls w \/
  exists seconds,
    LangGraph.device_calls w'
    = (LangGraph.device_calls w ++ [mkCall TimeSleep [seconds] []])%list.

(** The update [planning_node] returns for an answer of the planner. *)
Definition planning_update (answer : Exn + Value) : LangGraph.Update :=
  match answer with
  | inr instructions =>
      LangGraph.mkUpdate [LangGraph.SystemMessage; LangGraph.HumanMessage]
        (Some instructions) None None None None None
  | inl e =>
      LangGraph.mkUpdate [] None None None None (Some true)
        (Some ("Planning failed: " ++ exn_msg e))
  end.

(** [m] issues at most one primitive call. *)
Definition at_most_one_call {A} (m : Dev A) : Prop :=
  forall h r h', m h = (r, h') -> h' = h \/ exists c, h' = (h ++ [c])%list.

(** The input [_execute_step] hands to the sleep tool. *)
Definition sleep_input (d : Dict) : Value :=
  VDict [("seconds", param_or d "seconds" (param_or d "secs" (VInt 1)))].

(** [m] only adds to the trace of primitive calls. *)
Definition appends {A} (m : M Interpreter.Store A) : Prop :=
  forall s r s', m s = (r, s') ->
                 exists cs, Interpreter.calls s' = (Interpreter.calls s ++ cs)%list.

(** * Properties *)
(** ** The monad *)

Section MonadFacts.
Context {S : Type}.

Lemma bind_returns {A B} (m : M S A) (k : A -> M S B) s a s' :
  m s = (inr a, s') -> bind m k s = k a s'.
Proof. intros H. unfold bind. rewrite H. reflexivity. Qed.

Lemma bind_raises {A B} (m : M S A) (k : A -> M S B) s e s' :
  m s = (inl e, s') -> bind m k s = (inl e, s').
Proof. intros H. unfold bind. rewrite H. reflexivity. Qed.

Lemma try_returns {A} (m : M S A) h s a s' :
  m s = (inr a, s') -> try_except m h s = (inr a, s').
Proof. intros H. unfold try_except. rewrite H. reflexivity. Qed.

Lemma try_raises {A} (m : M S A) h s e s' :
  m s = (inl e, s') -> try_except m h s = h e s'.
Proof. intros H. unfold try_except. rewrite H. reflexivity. Qed.

(** A [try] whose handler returns does not raise. *)
Lemma try_except_total {A} (m : M S A) (f : Exn -> A) s :
  exists a s', try_except m (fun e => ret (f e)) s = (inr a, s').
Proof.
  unfold try_except, ret. destruct (m s) as [[e | a] s']; eauto.
Qed.

End MonadFacts.

(** ** Strings *)

Lemma prefix_append (p s : string) : String.prefix p (p ++ s) = true.
Proof.
  induction p as [| c p IH]; simpl.
  - destruct s; reflexivity.
  - destruct (Ascii.ascii_dec c c); [assumption | congruence].
Qed.

Lemma contains_append (sub a b : string) :
  contains sub b = true -> contains sub (a ++ b) = true.
Proof.
  intros H. induction a as [| c a IH]; simpl; [assumption |].
  rewrite IH. match goal with |- (if ?t then _ else _) = _ => destruct t end; reflexivity.
Qed.

Lemma lower_append (a b : string) : lower (a ++ b) = lower a ++ lower b.
Proof. induction a as [| c a IH]; simpl; [| rewrite IH]; reflexivity. Qed.

(** An output that announces a failure is flagged, whatever follows. *)
Lemma failed_flagged (what cause : string) :
  contains "failed" (lower (what ++ "failed: " ++ cause)) = true.
Proof.
  rewrite lower_append. apply contains_append.
  change (lower ("failed: " ++ cause)) with ("failed" ++ lower (": " ++ cause)).
  unfold contains at 1. destruct ("failed" ++ lower (": " ++ cause)) eqn:E.
  - discriminate.
  - rewrite <- E, prefix_append. reflexivity.
Qed.

Lemma bind_ret {S A B} (a : A) (k : A -> M S B) s : bind (ret a) k s = k a s.
Proof. reflexivity. Qed.

Lemma bind_lift {S A B} (a : A) (k : A -> M S B) s : bind (lift (inr a)) k s = k a s.
Proof. reflexivity. Qed.

(** ** The Interpreter *)

Module InterpreterFacts.
Import Interpreter.

Lemma issued_issued st cs cs' : issued (issued st cs) cs' = issued st (cs ++ cs').
Proof. unfold issued. cbn. rewrite app_assoc. reflexivity. Qed.

Lemma device_call_quiet rt c st :
  quiet rt -> exists v, device (call rt c) st = (inr v, issued st [c]).
Proof.
  intros Hq. destruct (Hq (calls st) c) as [v Hv]. exists v.
  unfold device, zoom, call. rewrite Hv. reflexivity.
Qed.

Lemma function_to_call_quiet rt name a k st :
  quiet rt ->
  function_to_call rt name a k st = (inr tt, issued st [mkCall (Pyautogui name) a k]).
Proof.
  intros Hq. unfold function_to_call.
  destruct (device_call_quiet rt (mkCall (Pyautogui name) a k) st Hq) as [v Hv].
  rewrite (bind_returns _ _ _ _ _ Hv). reflexivity.
Qed.

(** With a quiet backend the warm-up is issued and the branch for the
    cleaned name is taken. *)
Lemma execute_function_after_warm_up rt name parameters st :
  quiet rt ->
  execute_function rt (VStr name) parameters st
  = call_by_name rt (clean_name name) parameters (issued st warm_up).
Proof.
  intros Hq. unfold execute_function.
  destruct (device_call_quiet rt (mkCall (Pyautogui "press") [VStr "command"]
                     [("interval", VFloat (1 # 5))]) st Hq) as [v1 H1].
  rewrite (bind_returns _ _ _ _ _ H1).
  destruct (device_call_quiet rt (mkCall TimeSleep [VFloat (1 # 10)] [])
              (issued st [mkCall (Pyautogui "press") [VStr "command"]
                     [("interval", VFloat (1 # 5))]]) Hq) as [v2 H2].
  rewrite (bind_returns _ _ _ _ _ H2).
  rewrite issued_issued. reflexivity.
Qed.

(** The press loop over a list of keys. *)
Lemma press_each_quiet rt presses interval keys st :
  quiet rt ->
  for_each keys (fun key =>
    function_to_call rt "press" [key] [("presses", presses); ("interval", interval)]) st
  = (inr tt,
     issued st (map (fun key => mkCall (Pyautogui "press") [key]
                                  [("presses", presses); ("interval", interval)]) keys)).
Proof.
  intros Hq. revert st. induction keys as [| key keys IH]; intros st.
  - unfold issued. cbn. rewrite app_nil_r. destruct st; reflexivity.
  - cbn [for_each map].
    rewrite (bind_returns _ _ _ _ _ (function_to_call_quiet rt _ _ _ st Hq)).
    rewrite IH, issued_issued. reflexivity.
Qed.

End InterpreterFacts.

Module InterpreterClaims.
Import Interpreter InterpreterFacts Reference.

Lemma calm_quiet : quiet calm.
Proof. intros h c. exists VNone. reflexivity. Qed.

(** C1 (the code departs from the claim).  A command without the
    ["function"] key makes [process_command] raise [KeyError] to its caller:
    the subscript on line 34 is evaluated before the [try] of line 39, so no
    [False] is returned, nothing is printed and nothing is queued. *)
Theorem missing_function_raises_KeyError rt json_command st :
  dict_get json_command "function" = None ->
  process_command rt json_command st = (inl (KeyError "function"), st).
Proof.
  intros H. unfold process_command, bind, lift. cbn [py_getitem].
  rewrite H. reflexivity.
Qed.

Lemma missing_function_raises_KeyError_witness :
  process_command plain [("parameters", VDict [])] empty_store
  = (inl (KeyError "function"), empty_store).
Proof.
  apply (missing_function_raises_KeyError plain [("parameters", VDict [])] empty_store).
  reflexivity.
Defined.

(** Once the ["function"] key is there, every exception is caught: the
    command returns a boolean, and [False] comes with the diagnostic lines
    that carry the exception, the name and the parameters. *)
Lemma process_command_catches rt json_command function_name st :
  dict_get json_command "function" = Some function_name ->
  exists success st',
    process_command rt json_command st = (inr success, st') /\
    (success = false ->
     exists e printed,
       stdout st' = (printed ++
         [ErrorExecuting e; JsonReceived json_command; WhatWeExtracted;
          ExtractedFunctionName function_name;
          ExtractedParameters (param_or json_command "parameters" (VDict []))])%list).
Proof.
  intros H. unfold process_command.
  unfold bind at 1, lift at 1. cbn [py_getitem]. rewrite H.
  unfold bind at 1, lift at 1. cbn [py_get].
  fold (param_or json_command "parameters" (VDict [])).
  unfold bind at 1, lift at 1.
  unfold bind at 1, print at 1.
  unfold bind at 1, put at 1.
  unfold try_except.
  unfold bind at 1.
  match goal with |- context [execute_function ?r ?f ?p ?s] =>
    destruct (execute_function r f p s) as [[e | []] s'] eqn:E end.
  - unfold bind, print, ret. cbv beta iota. cbn [calls stdout status_queue].
    eexists false, _. split; [reflexivity |]. intros _.
    exists e, (stdout s'). cbn [stdout].
    repeat rewrite <- app_assoc. reflexivity.
  - eexists true, _. split; [reflexivity | discriminate].
Qed.

(** C6 as amended.  In [Interpreter.execute_function], with a backend whose
    calls return, a press descriptor whose ["keys"] is a non-empty list
    issues, after the warm-up, one [press] call per key in list order, all
    with the same [presses] (default 1) and [interval] (default 0.2); any
    other truthy ["keys"] issues one such call. *)
Theorem press_issues_one_call_per_key rt name d keys st :
  quiet rt ->
  clean_name name = "press" ->
  has_attr rt "press" = true ->
  dict_get d "keys" = Some keys ->
  truthy keys = true ->
  execute_function rt (VStr name) (VDict d) st
  = (inr tt,
     issued st
       (warm_up ++
        map (press_with (param_or d "presses" (VInt 1))
               (param_or d "interval" (VFloat (1 # 5))))
          (match keys with VList l => l | _ => [keys] end))).
Proof.
  intros Hq Hname Hattr Hkeys Htruthy.
  rewrite execute_function_after_warm_up by assumption.
  rewrite Hname. unfold call_by_name.
  change ("press" =? "sleep")%string with false.
  change ("press" =? "write")%string with false.
  change ("press" =? "press")%string with true.
  cbv beta iota.
  rewrite bind_ret, Hattr, bind_ret.
  assert (Hin : in_any ["keys"; "key"] (VDict d) = inr true).
  { cbn [in_any py_in]. unfold dict_has. rewrite Hkeys. reflexivity. }
  rewrite Hin, bind_lift.
  unfold do_press.
  assert (Hfirst : get_first_truthy (VDict d) ["keys"; "key"] = inr keys).
  { cbn [get_first_truthy py_get]. rewrite Hkeys, Htruthy. reflexivity. }
  rewrite Hfirst, bind_lift.
  cbn [py_get]. fold (param_or d "presses" (VInt 1)).
  fold (param_or d "interval" (VFloat (1 # 5))).
  rewrite !bind_lift. unfold press_with.
  destruct keys as [| b | z | q | s | l | dd];
    try (rewrite function_to_call_quiet by assumption;
         rewrite issued_issued; reflexivity).
  rewrite press_each_quiet by assumption. rewrite issued_issued. reflexivity.
Qed.

Lemma press_issues_one_call_per_key_witness :
  execute_function calm (VStr "pyautogui.press")
    (VDict [("keys", VList [VStr "a"; VStr "b"])]) empty_store
  = (inr tt,
     issued empty_store
       (warm_up ++ [press_with (VInt 1) (VFloat (1 # 5)) (VStr "a");
                    press_with (VInt 1) (VFloat (1 # 5)) (VStr "b")])).
Proof.
  apply (press_issues_one_call_per_key calm "pyautogui.press"
           [("keys", VList [VStr "a"; VStr "b"])]
           (VList [VStr "a"; VStr "b"]) empty_store);
    [exact calm_quiet | reflexivity | reflexivity | reflexivity | reflexivity].
Defined.

(** C6, counterexample.  On the LangGraph surface the same descriptor goes
    to [press_key], which treats a list as one simultaneous combination: a
    single [hotkey] call and no [press] call. *)
Lemma press_list_is_one_hotkey_in_tools :
  LangGraph._execute_step plain (VStr "press")
    (VDict [("keys", VList [VStr "a"; VStr "b"])]) []
  = (inr "Pressed hotkey: a+b",
     [mkCall (Pyautogui "hotkey") [VStr "a"; VStr "b"] []]).
Proof. vm_compute. reflexivity. Qed.

(** C8 as amended.  With a backend whose calls return, a click command is
    reported successful in both cases, whether or not the command carries a
    ["parameters"] key.  The click primitive is called, with [clicks]
    defaulting to 1, exactly when both coordinates are present, and the
    line announcing the click is printed; otherwise only the warm-up is
    issued and the invalid-parameters line is printed.  The store is given
    in full: calls, printed lines and status queue. *)
Theorem click_needs_both_coordinates rt json_command name d st :
  quiet rt ->
  dict_get json_command "function" = Some (VStr name) ->
  param_or json_command "parameters" (VDict []) = VDict d ->
  clean_name name = "click" ->
  has_attr rt "click" = true ->
  let x := param_or d "x" VNone in
  let y := param_or d "y" VNone in
  let clicks := param_or d "clicks" (VInt 1) in
  let why := param_or json_command "human_readable_justification" VNone in
  let both := (negb (is_none x) && negb (is_none y))%bool in
  process_command rt json_command st
  = (inr true,
     mkStore
       (calls st ++ warm_up ++ (if both then [click_at x y clicks] else []))%list
       (stdout st ++
        [NowPerforming (VStr name) (VDict d) why;
         if both then ClickingAt x y clicks else InvalidClickParameters (VDict d)])%list
       (status_queue st ++ [why])%list).
Proof.
  intros Hq Hf Hp Hname Hattr x y clicks why both.
  unfold process_command.
  unfold bind at 1, lift at 1. cbn [py_getitem]. rewrite Hf.
  unfold bind at 1, lift at 1. cbn [py_get].
  fold (param_or json_command "parameters" (VDict [])). rewrite Hp.
  fold (param_or json_command "human_readable_justification" VNone). fold why.
  unfold bind at 1, lift at 1.
  unfold bind at 1, print at 1. unfold bind at 1, put at 1.
  cbn [calls stdout status_queue].
  unfold try_except. unfold bind at 1.
  rewrite execute_function_after_warm_up by assumption.
  rewrite Hname. unfold call_by_name.
  change ("click" =? "sleep")%string with false.
  change ("click" =? "write")%string with false.
  change ("click" =? "press")%string with false.
  change ("click" =? "hotkey")%string with false.
  change ("click" =? "click")%string with true.
  cbv beta iota.
  rewrite bind_ret, Hattr, !bind_ret.
  unfold do_click. cbn [py_get].
  fold (param_or d "x" VNone). fold (param_or d "y" VNone).
  fold (param_or d "clicks" (VInt 1)). fold x. fold y. fold clicks.
  rewrite !bind_lift. fold both.
  destruct both.
  - unfold bind at 1, print at 1.
    rewrite function_to_call_quiet by assumption.
    unfold ret, issued, click_at. cbn [calls stdout status_queue].
    rewrite <- !app_assoc. reflexivity.
  - unfold print, ret, issued. cbn [calls stdout status_queue].
    rewrite app_nil_r, <- !app_assoc. reflexivity.
Qed.

Lemma click_needs_both_coordinates_witness :
  process_command calm [("function", VStr "click")] empty_store
  = (inr true,
     mkStore warm_up
       [NowPerforming (VStr "click") (VDict []) VNone;
        InvalidClickParameters (VDict [])]
       [VNone]).
Proof.
  apply (click_needs_both_coordinates calm [("function", VStr "click")] "click" []
           empty_store);
    [exact calm_quiet | reflexivity | reflexivity | reflexivity | reflexivity].
Defined.

(** C8, counterexample.  A click without ["y"] is not turned into a failure
    result: [process_command] returns [True], having printed the
    invalid-parameters line. *)
Lemma click_without_y_reported_successful :
  process_command plain (command "click" [("x", VInt 10)]) empty_store
  = (inr true,
     mkStore warm_up
       [NowPerforming (VStr "click") (VDict [("x", VInt 10)]) VNone;
        InvalidClickParameters (VDict [("x", VInt 10)])]
       [VNone]).
Proof. vm_compute. reflexivity. Qed.

(** C4, counterexample.  [process_commands] stops at the first failing
    command: the click trips the fail-safe, [False] is returned and the key
    press queued after it is never dispatched. *)
Lemma process_commands_stops_at_first_failure :
  fst (process_commands plain
         [command "click" [("x", VInt 0); ("y", VInt 0)];
          command "press" [("key", VStr "enter")]] empty_store) = inr false /\
  calls (snd (process_commands plain
         [command "click" [("x", VInt 0); ("y", VInt 0)];
          command "press" [("key", VStr "enter")]] empty_store))
  = (warm_up ++ [click_at (VInt 0) (VInt 0) (VInt 1)])%list.
Proof. vm_compute. split; reflexivity. Qed.

(** The fail-fast policy in general. *)
Lemma process_commands_fail_fast rt command rest st st' :
  process_command rt command st = (inr false, st') ->
  process_commands rt (command :: rest) st = (inr false, st').
Proof.
  intros H. cbn [process_commands]. rewrite (bind_returns _ _ _ _ _ H).
  reflexivity.
Qed.

End InterpreterClaims.

(** ** The LangGraph dispatcher and the execution loop *)

Module LoopLemmas.
Import Tools LangGraph LoopFacts.

Lemma on_device_frame {A} (m : Dev A) w r w' :
  on_device m w = (r, w') ->
  plan_calls w' = plan_calls w /\ flag_reads w' = flag_reads w /\
  m (device_calls w) = (r, device_calls w').
Proof.
  unfold on_device, zoom. destruct (m (device_calls w)) as [r0 h'].
  intros H. inversion H; subst. cbn. auto.
Qed.

(** A step whose name is a string never raises out of [_execute_step]. *)
Lemma _execute_step_total rt name parameters h :
  exists out h', _execute_step rt (VStr name) parameters h = (inr out, h').
Proof.
  unfold _execute_step. rewrite (bind_returns _ _ _ name h eq_refl).
  cbv zeta.
  destruct (mapping_get tool_mapping
              (if startswith name "pyautogui." then replace name "pyautogui." ""
               else name)) as [tool_index |].
  - apply try_except_total.
  - eexists _, _. reflexivity.
Qed.

Lemma well_formed_step_inv step :
  well_formed_step step = true ->
  exists d name, step = VDict d /\
                 py_get step "function" (VStr "") = inr (VStr name).
Proof.
  destruct step as [| | | | | | d]; try discriminate. cbn.
  destruct (dict_get d "function") as [[| | | | name | |] |]; try discriminate;
    intros _; eauto.
Qed.

(** With the flag never set, the loop dispatches every well-formed step, in
    order, whatever each dispatch returns, and ends the round. *)
Lemma execution_loop_runs rt step_count steps :
  (forall k, interrupt_flag rt k = false) ->
  forallb well_formed_step steps = true ->
  forall acc w, exists rs w',
    execution_loop rt step_count steps acc w
    = (inr (mkUpdate [] None (Some (acc ++ rs)%list) (Some (step_count + 1))
              None None None), w') /\
    plan_calls w' = plan_calls w /\
    dispatched_in_order rt steps rs (device_calls w) (device_calls w').
Proof.
  intros Hflag. induction steps as [| step steps IH]; intros Hwf acc w.
  - exists [], w. rewrite app_nil_r. repeat split. constructor.
  - cbn [forallb] in Hwf. apply andb_prop in Hwf as [Hstep Hrest].
    destruct (well_formed_step_inv step Hstep) as (d & name & -> & Hname).
    cbn [execution_loop].
    unfold bind at 1, interrupt_requested. rewrite Hflag.
    unfold bind at 1, lift at 1. rewrite Hname.
    unfold bind at 1, lift at 1. cbn [py_get].
    unfold bind at 1, lift at 1.
    unfold bind at 1.
    match goal with |- context [on_device ?m ?w0] =>
      destruct (on_device m w0) as [r w1] eqn:E end.
    destruct (on_device_frame _ _ _ _ E) as (Hp & Hf & Hrun).
    cbn [device_calls plan_calls flag_reads] in Hp, Hrun.
    match type of Hrun with _execute_step _ _ ?ps ?h = _ =>
      destruct (_execute_step_total rt name ps h) as (out & h' & Hout) end.
    rewrite Hout in Hrun. inversion Hrun as [[Hr Hh]]. subst r.
    match goal with |- context [execution_loop rt step_count steps ?a w1] =>
      destruct (IH Hrest a w1) as (rs & w' & Hloop & Hplan & Hchain) end.
    eexists (_ :: rs), w'. rewrite Hloop, <- app_assoc. split; [reflexivity |].
    split; [congruence |].
    econstructor; [| rewrite Hh; exact Hchain].
    unfold dispatched, records.
    cbn [function parameters justification result success].
    rewrite Hout, Hh. repeat split; try reflexivity. exact Hname.
Qed.

End LoopLemmas.

(** ** Failures of primitives are flagged *)

Module FailureFlag.
Import Tools LangGraph LoopFacts.

Lemma stateless_ret {A} (a : A) : stateless (ret a).
Proof. intros h. eexists. reflexivity. Qed.

Lemma stateless_lift {A} (x : Exn + A) : stateless (lift x).
Proof. intros h. eexists. reflexivity. Qed.

Lemma stateless_bind {A B} (m : Dev A) (k : A -> Dev B) :
  stateless m -> (forall a, stateless (k a)) -> stateless (bind m k).
Proof.
  intros Hm Hk h. unfold bind. destruct (Hm h) as [[e | a] ->].
  - eexists. reflexivity.
  - apply Hk.
Qed.

Lemma not_raised_in_place rt h : ~ raised_between rt h h.
Proof.
  intros (c & e & H & _). apply (f_equal (@List.length Call)) in H.
  rewrite length_app in H. cbn in H. lia.
Qed.

Lemma raised_call_inv rt h c :
  raised_between rt h (h ++ [c]) -> exists e, backend rt h c = inl e.
Proof.
  intros (c' & e & H & Hb). apply app_inv_head in H. inversion H; subst. eauto.
Qed.

Lemma flags_stateless rt (m : Dev string) : stateless m -> flags_failure rt m.
Proof.
  intros Hm h r h' H Hr. destruct (Hm h) as [r0 H0]. rewrite H0 in H.
  inversion H; subst. destruct (not_raised_in_place _ _ Hr).
Qed.

Lemma flags_bind rt {A} (m : Dev A) (k : A -> Dev string) :
  stateless m -> (forall a, flags_failure rt (k a)) -> flags_failure rt (bind m k).
Proof.
  intros Hm Hk h r h' H Hr. unfold bind in H. destruct (Hm h) as [[e | a] H0];
    rewrite H0 in H.
  - inversion H; subst. exact I.
  - exact (Hk a h r h' H Hr).
Qed.

(** One call followed by stateless code. *)
Lemma flags_call rt c (k : Value -> Dev string) :
  (forall v, stateless (k v)) -> flags_failure rt (bind (call rt c) k).
Proof.
  intros Hk h r h' H Hr. unfold bind, call in H.
  destruct (backend rt h c) as [e | v] eqn:Hb.
  - inversion H; subst. exact I.
  - destruct (Hk v (h ++ [c])%list) as [r0 Hr0]. rewrite Hr0 in H.
    inversion H; subst. destruct (raised_call_inv _ _ _ Hr) as [e He]. congruence.
Qed.

(** A [try] whose handler announces the failure. *)
Lemma flags_try rt (m : Dev string) what :
  flags_failure rt m ->
  flags_failure rt (try_except m (fun e => ret (what ++ "failed: " ++ exn_msg e))).
Proof.
  intros Hm h r h' H Hr. unfold try_except in H.
  destruct (m h) as [[e | out] h1] eqn:E.
  - inversion H; subst. apply failed_flagged.
  - inversion H; subst. exact (Hm h (inr out) h' E Hr).
Qed.

Ltac stateless_tac :=
  repeat first [ apply stateless_ret | apply stateless_lift
               | apply stateless_bind; [| intro] ].

Lemma flags_click_tool rt x y clicks : flags_failure rt (click_tool rt x y clicks).
Proof. apply (flags_try rt _ "Click "), flags_call. intro. stateless_tac. Qed.

Lemma flags_type_text rt text interval : flags_failure rt (type_text rt text interval).
Proof. apply (flags_try rt _ "Type "), flags_call. intro. stateless_tac. Qed.

Lemma flags_press_key rt key presses : flags_failure rt (press_key rt key presses).
Proof.
  apply (flags_try rt _ "Key press ").
  destruct key; apply flags_call; intro; stateless_tac.
Qed.

Lemma flags_hotkey rt keys : flags_failure rt (hotkey rt keys).
Proof. apply (flags_try rt _ "Hotkey "), flags_call. intro. stateless_tac. Qed.

Lemma flags_sleep_tool rt seconds : flags_failure rt (sleep_tool rt seconds).
Proof. apply flags_call. intro. stateless_tac. Qed.

Lemma flags_take_screenshot rt : flags_failure rt (take_screenshot rt).
Proof. apply (flags_try rt _ "Screenshot "), flags_call. intro. stateless_tac. Qed.

Lemma flags_invoke rt tool input : flags_failure rt (invoke rt tool input).
Proof.
  destruct tool; cbn [invoke]; apply flags_bind; try apply stateless_lift.
  - intros [[x y] clicks]. apply flags_click_tool.
  - intros [text interval]. apply flags_type_text.
  - intros [key presses]. apply flags_press_key.
  - intros keys. apply flags_hotkey.
  - intros seconds. apply flags_sleep_tool.
  - intros _. apply flags_take_screenshot.
Qed.

Lemma flags_func_varargs rt tool keys : flags_failure rt (func_varargs rt tool keys).
Proof.
  destruct tool; cbn [func_varargs];
    try (apply flags_stateless; intros h; eexists; reflexivity).
  apply flags_hotkey.
Qed.

(** Whatever the step, a primitive that raised during its dispatch leaves
    "failed" in the output. *)
Lemma flags__execute_step rt function_name parameters :
  flags_failure rt (_execute_step rt function_name parameters).
Proof.
  unfold _execute_step. apply flags_bind; [apply stateless_lift |]. intros name.
  cbv zeta.
  destruct (mapping_get tool_mapping _) as [tool_index |];
    [| apply flags_stateless, stateless_ret].
  apply (flags_try rt _ "Execution ").
  apply flags_bind; [apply stateless_lift |]. intros tool.
  repeat match goal with
         | |- flags_failure _ (if ?b then _ else _) => destruct b
         end.
  - apply flags_bind; [apply stateless_lift |]. intros has_text.
    apply flags_bind; [| intro; apply flags_invoke].
    destruct has_text; stateless_tac.
  - apply flags_bind; [apply stateless_lift |]. intros has_keys.
    apply flags_bind; [| intro; apply flags_invoke].
    destruct has_keys; stateless_tac.
  - apply flags_bind; [apply stateless_lift |]. intros has_keys.
    apply flags_bind; [destruct has_keys; stateless_tac |]. intros keys.
    destruct has_keys; [destruct keys |];
      first [apply flags_func_varargs | apply flags_invoke].
  - apply flags_bind; [apply stateless_lift |]. intros has_seconds.
    apply flags_bind; [| intro; apply flags_invoke].
    destruct has_seconds; stateless_tac.
    match goal with |- stateless (if ?b then _ else _) => destruct b end;
      stateless_tac.
  - apply flags_invoke.
Qed.

(** A dispatch during which a primitive raised is recorded as failed. *)
Lemma raised_recorded_failed rt step r h h' :
  dispatched rt step r h h' -> raised_between rt h h' -> success r = false.
Proof.
  intros (_ & Hrun & Hflag) Hr. rewrite Hflag.
  rewrite (flags__execute_step rt _ _ h (inr (result r)) h' Hrun Hr).
  reflexivity.
Qed.

End FailureFlag.

(** ** Nodes and runs *)

Module NodeLemmas.
Import Tools LangGraph LoopFacts LoopLemmas.

(** A run that stops within [k] node executions is what [graph_invoke]
    computes under any limit of at least [k]. *)
Lemma runs_to_invoke rt k n st w r w' :
  runs_to rt k n st w r w' ->
  forall limit, (k <= limit)%nat -> graph_invoke rt limit n st w = (r, w').
Proof.
  induction 1 as [k n st w e w' Hrun
                 | k n st w u w' w'' Hrun Hnext
                 | k n st w u w' n' w'' r w3 Hrun Hnext _ IH];
    intros [| limit] Hle; try lia; cbn [graph_invoke].
  - apply (bind_raises _ _ _ _ _ Hrun).
  - rewrite (bind_returns _ _ _ _ _ Hrun). cbv zeta.
    rewrite (bind_returns _ _ _ _ _ Hnext). reflexivity.
  - rewrite (bind_returns _ _ _ _ _ Hrun). cbv zeta.
    rewrite (bind_returns _ _ _ _ _ Hnext). apply IH. lia.
Qed.

Lemma runs_to_more rt k n st w r w' :
  runs_to rt k n st w r w' -> forall k', (k <= k')%nat -> runs_to rt k' n st w r w'.
Proof.
  induction 1; intros [| k'] Hle; try lia.
  - eapply runs_raise; eassumption.
  - eapply runs_end; eassumption.
  - eapply runs_on; try eassumption. apply IHruns_to. lia.
Qed.

Lemma has_error_update st u :
  has_error (apply_update st u)
  = match upd_error_message u with
    | Some m => negb (m =? "")%string
    | None => has_error st
    end.
Proof. unfold has_error. cbn. destruct (upd_error_message u); reflexivity. Qed.

(** *** The execution node *)

Lemma execution_loop_shape rt sc steps :
  forall acc w r w',
    Forall flag_from_text acc ->
    execution_loop rt sc steps acc w = (r, w') ->
    plan_calls w' = plan_calls w /\
    match r with
    | inr u =>
        u = interrupted \/
        exists rs, u = mkUpdate [] None (Some rs) (Some (sc + 1)) None None None /\
                   Forall flag_from_text rs
    | inl _ => True
    end.
Proof.
  induction steps as [| step steps IH]; intros acc w r w' Hacc H.
  - inversion H; subst. split; [reflexivity |]. right. eauto.
  - cbn [execution_loop] in H.
    unfold bind at 1, interrupt_requested in H.
    destruct (interrupt_flag rt (flag_reads w)).
    { inversion H; subst. split; [reflexivity | left; reflexivity]. }
    unfold bind at 1, lift at 1 in H.
    destruct (py_get step "function" (VStr "")) as [e | fn];
      [inversion H; subst; split; [reflexivity | exact I] |].
    unfold bind at 1, lift at 1 in H.
    destruct (py_get step "parameters" (VDict [])) as [e | ps];
      [inversion H; subst; split; [reflexivity | exact I] |].
    unfold bind at 1, lift at 1 in H.
    destruct (py_get step "human_readable_justification" (VStr "")) as [e | why];
      [inversion H; subst; split; [reflexivity | exact I] |].
    unfold bind at 1 in H.
    destruct (on_device (_execute_step rt fn ps) _) as [[e | out] w1] eqn:E;
      destruct (on_device_frame _ _ _ _ E) as (Hp & _ & _); cbn in Hp.
    { inversion H; subst. split; [assumption | exact I]. }
    apply IH in H.
    + destruct H as [Hp' Hr]. split; [congruence | exact Hr].
    + apply Forall_app. split; [assumption |]. repeat constructor.
Qed.

Lemma execution_node_shape rt st w r w' :
  execution_node rt st w = (r, w') ->
  plan_calls w' = plan_calls w /\
  match r with
  | inr u =>
      u = no_instructions \/ u = interrupted \/
      exists rs, u = mkUpdate [] None (Some rs) (Some (step_count st + 1))
                       None None None /\
                 Forall flag_from_text rs
  | inl _ => True
  end.
Proof.
  unfold execution_node. intros H.
  destruct (negb (truthy (current_instructions st))).
  { inversion H; subst. split; [reflexivity | left; reflexivity]. }
  unfold bind at 1, lift at 1 in H.
  destruct (py_get (current_instructions st) "steps" VNone) as [e | steps];
    [inversion H; subst; split; [reflexivity | exact I] |].
  destruct (negb (truthy steps)).
  { inversion H; subst. split; [reflexivity | left; reflexivity]. }
  unfold bind at 1, lift at 1 in H.
  destruct (py_iter steps) as [e | items];
    [inversion H; subst; split; [reflexivity | exact I] |].
  apply execution_loop_shape in H; [| constructor].
  destruct H as [Hp Hr]. split; [assumption |].
  destruct r as [e | u]; [exact I |]. destruct Hr as [-> | Hr]; auto.
Qed.

(** The round runs to its end when the plan is an unfinished plan and the
    flag is never set. *)
Lemma execution_node_runs rt st w d steps :
  (forall k, interrupt_flag rt k = false) ->
  current_instructions st = VDict d ->
  dict_get d "steps" = Some (VList steps) ->
  steps <> [] ->
  forallb well_formed_step steps = true ->
  exists rs w',
    execution_node rt st w
    = (inr (mkUpdate [] None (Some rs) (Some (step_count st + 1)) None None None),
       w') /\
    plan_calls w' = plan_calls w /\
    dispatched_in_order rt steps rs (device_calls w) (device_calls w').
Proof.
  intros Hflag Hci Hsteps Hne Hwf. unfold execution_node. rewrite Hci.
  assert (Hd : truthy (VDict d) = true).
  { destruct d; [discriminate | reflexivity]. }
  rewrite Hd. cbn [negb].
  unfold bind at 1, lift at 1. cbn [py_get]. rewrite Hsteps.
  assert (Hl : truthy (VList steps) = true).
  { destruct steps; [congruence | reflexivity]. }
  rewrite Hl. cbn [negb]. unfold bind at 1, lift at 1. cbn [py_iter].
  destruct (execution_loop_runs rt (step_count st) steps Hflag Hwf [] w)
    as (rs & w' & Hrun & Hp & Hchain).
  exists rs, w'. rewrite Hrun. auto.
Qed.

End NodeLemmas.

(** ** The dispatcher and the execution node: claims *)

Module DispatchClaims.
Import Tools LangGraph LoopFacts LoopLemmas FailureFlag NodeLemmas Reference.

(** C2, counterexample.  A step named [unknown_fn] is recorded with
    [success = True]: the output "Unknown function: unknown_fn" does not
    contain "failed", and nothing tags the result as an unknown action. *)
Lemma unknown_fn_recorded_successful :
  recorded plain (planned (plan [step "unknown_fn" [] "try it"])) new_world
  = [mkResult (VStr "unknown_fn") (VDict []) (VStr "try it")
       "Unknown function: unknown_fn" true].
Proof. vm_compute. reflexivity. Qed.

Lemma _execute_step_unknown rt name parameters h :
  mapping_get tool_mapping (stripped name) = None ->
  _execute_step rt (VStr name) parameters h
  = (inr ("Unknown function: " ++ stripped name), h).
Proof.
  intros H. unfold _execute_step. cbn [py_as_str]. rewrite bind_lift.
  cbv zeta. fold (stripped name). rewrite H. reflexivity.
Qed.

(** C2 as amended.  A step whose name, once a leading "pyautogui." is
    stripped, is not a key of [tool_mapping] does not raise and calls no
    primitive: the loop moves on with the device trace unchanged, having
    recorded the output "Unknown function: <name>" and a success flag computed
    from that text like any other. *)
Theorem unknown_name_calls_no_primitive rt step_count d name rest acc w :
  dict_get d "function" = Some (VStr name) ->
  mapping_get tool_mapping (stripped name) = None ->
  interrupt_flag rt (flag_reads w) = false ->
  execution_loop rt step_count (VDict d :: rest) acc w
  = execution_loop rt step_count rest
      (acc ++
       [mkResult (VStr name) (param_or d "parameters" (VDict []))
          (param_or d "human_readable_justification" (VStr ""))
          ("Unknown function: " ++ stripped name)
          (negb (contains "failed" (lower ("Unknown function: " ++ stripped name))))])%list
      (mkWorld (device_calls w) (plan_calls w) (S (flag_reads w))).
Proof.
  intros Hname Hmap Hflag. cbn [execution_loop].
  unfold bind at 1, interrupt_requested. rewrite Hflag.
  unfold bind at 1, lift at 1. cbn [py_get]. rewrite Hname.
  unfold bind at 1, lift at 1. unfold bind at 1, lift at 1.
  fold (param_or d "parameters" (VDict [])).
  fold (param_or d "human_readable_justification" (VStr "")).
  unfold bind at 1, on_device, zoom. cbn [device_calls plan_calls flag_reads].
  rewrite (_execute_step_unknown rt name _ _ Hmap). reflexivity.
Qed.

Lemma unknown_name_calls_no_primitive_witness :
  execution_loop plain 0 [step "unknown_fn" [] "try it"] [] new_world
  = execution_loop plain 0 []
      [mkResult (VStr "unknown_fn") (VDict []) (VStr "try it")
         "Unknown function: unknown_fn" true]
      (mkWorld [] 0 1).
Proof.
  apply (unknown_name_calls_no_primitive plain 0
           [("function", VStr "unknown_fn"); ("parameters", VDict []);
            ("human_readable_justification", VStr "try it")]
           "unknown_fn" [] [] new_world);
    reflexivity.
Defined.

(** C4 as amended.  On the LangGraph surface a failing step does not end
    the round: with the flag never set, every step of the plan is dispatched
    in order and recorded once, and the round is counted; a dispatch during
    which a primitive raised is recorded with [success = False]. *)
Theorem execution_node_continues_after_failure rt st w d steps :
  (forall k, interrupt_flag rt k = false) ->
  current_instructions st = VDict d ->
  dict_get d "steps" = Some (VList steps) ->
  steps <> [] ->
  forallb well_formed_step steps = true ->
  (exists rs w',
     execution_node rt st w
     = (inr (mkUpdate [] None (Some rs) (Some (step_count st + 1)) None None None),
        w') /\
     dispatched_in_order rt steps rs (device_calls w) (device_calls w')) /\
  (forall step r h h',
     dispatched rt step r h h' -> raised_between rt h h' -> success r = false).
Proof.
  intros Hflag Hci Hsteps Hne Hwf. split.
  - destruct (execution_node_runs rt st w d steps Hflag Hci Hsteps Hne Hwf)
      as (rs & w' & Hrun & _ & Hchain).
    eauto.
  - intros step r h h'. apply raised_recorded_failed.
Qed.

Lemma execution_node_continues_after_failure_witness :
  (exists rs w',
     execution_node plain
       (planned (plan [step "click" [("x", VInt 0); ("y", VInt 0)] "corner";
                       press_enter])) new_world
     = (inr (mkUpdate [] None (Some rs) (Some (0 + 1)) None None None), w') /\
     dispatched_in_order plain
       [step "click" [("x", VInt 0); ("y", VInt 0)] "corner"; press_enter]
       rs [] (device_calls w')) /\
  (forall step r h h',
     dispatched plain step r h h' -> raised_between plain h h' -> success r = false).
Proof.
  apply (execution_node_continues_after_failure plain
           (planned (plan [step "click" [("x", VInt 0); ("y", VInt 0)] "corner";
                           press_enter]))
           new_world
           [("steps", VList [step "click" [("x", VInt 0); ("y", VInt 0)] "corner";
                             press_enter])]
           [step "click" [("x", VInt 0); ("y", VInt 0)] "corner"; press_enter]);
    [intro; reflexivity | reflexivity | reflexivity | discriminate | reflexivity].
Defined.

(** The same plan, evaluated: the click fails and is recorded as failed, the
    key press after it is dispatched all the same. *)
Example failed_click_then_press :
  map (fun r => (result r, success r))
    (recorded plain
       (planned (plan [step "click" [("x", VInt 0); ("y", VInt 0)] "corner";
                       press_enter])) new_world)
  = [("Click failed: PyAutoGUI fail-safe triggered", false);
     ("Pressed key: enter (1 times)", true)].
Proof. vm_compute. reflexivity. Qed.

(** C9, counterexample.  Two rounds dispatch two descriptors (a click, then
    a key press, both in the device trace), yet the final results sequence
    holds the key press alone: the second round replaced the first. *)
Lemma second_round_replaces_results :
  exists st w,
    execute_request two_rounds 25 "do it" 10 new_world = (inr (Final st), w) /\
    step_count st = 2 /\
    device_calls w
    = [mkCall TimeSleep [VFloat 1] []; click_at (VInt 10) (VInt 20) (VInt 1);
       mkCall TimeSleep [VFloat 1] [];
       mkCall (Pyautogui "press") [VStr "enter"] [("presses", VInt 1)]] /\
    map function (execution_results st) = [VStr "press"].
Proof. eexists _, _. vm_compute. repeat split. Qed.

(** C9 as amended.  A completed round overwrites the results sequence: the
    state then holds exactly the results of the steps dispatched in that
    round, in dispatch order, whatever it held before; and no other node
    touches the sequence. *)
Theorem results_hold_the_last_round rt :
  (forall st w d steps,
     (forall k, interrupt_flag rt k = false) ->
     current_instructions st = VDict d ->
     dict_get d "steps" = Some (VList steps) ->
     steps <> [] ->
     forallb well_formed_step steps = true ->
     exists u w' rs,
       execution_node rt st w = (inr u, w') /\
       execution_results (apply_update st u) = rs /\
       step_count (apply_update st u) = step_count st + 1 /\
       dispatched_in_order rt steps rs (device_calls w) (device_calls w')) /\
  (forall n st w u w',
     n <> execution ->
     run_node rt n st w = (inr u, w') ->
     execution_results (apply_update st u) = execution_results st).
Proof.
  split.
  - intros st w d steps Hflag Hci Hsteps Hne Hwf.
    destruct (execution_node_runs rt st w d steps Hflag Hci Hsteps Hne Hwf)
      as (rs & w' & Hrun & _ & Hchain).
    eexists _, w', rs. split; [exact Hrun |]. cbn. auto.
  - intros n st w u w' Hn H.
    assert (Hnone : upd_execution_results u = None);
      [| cbn; rewrite Hnone; reflexivity].
    destruct n; [| congruence | | |]; cbn [run_node] in H.
    + unfold planning_node, bind at 1 in H.
      match type of H with context [if ?b then _ else _] => destruct b end.
      * unfold bind at 1, lift at 1 in H. cbn [tool_at nth_error create_pyautogui_tools] in H.
        unfold bind at 1 in H.
        destruct (on_device _ w) as [[e | out] w1]; [discriminate |].
        cbn [ret] in H. unfold try_except, bind, get_instructions_for_objective, ret in H.
        destruct (planner rt _ _ _); inversion H; reflexivity.
      * unfold ret at 1 in H.
        unfold try_except, bind, get_instructions_for_objective, ret in H.
        destruct (planner rt _ _ _); inversion H; reflexivity.
    + unfold validation_node, bind, lift, ret in H.
      destruct (py_get (current_instructions st) "done" VNone) as [e | done];
        [discriminate |].
      destruct (truthy done).
      * destruct (py_getitem _ _) as [e | content]; [discriminate |].
        destruct (ai_message content); inversion H; reflexivity.
      * destruct (max_steps st <=? step_count st); inversion H; reflexivity.
    + unfold screenshot_node, try_except, bind, lift, ret in H.
      cbn [tool_at nth_error create_pyautogui_tools] in H.
      destruct (on_device _ w) as [[e | out] w1]; inversion H; reflexivity.
    + unfold response_node, bind, lift, ret in H.
      destruct (has_error st); [cbn [ai_message] in H; inversion H; reflexivity |].
      destruct (py_get _ _ _) as [e | response]; [discriminate |].
      destruct (ai_message response); inversion H; reflexivity.
Qed.

Lemma results_hold_the_last_round_witness :
  exists u w' rs,
    execution_node plain (planned (plan [press_enter])) new_world = (inr u, w') /\
    execution_results (apply_update (planned (plan [press_enter])) u) = rs /\
    step_count (apply_update (planned (plan [press_enter])) u) = 0 + 1 /\
    dispatched_in_order plain [press_enter] rs [] (device_calls w').
Proof.
  apply (proj1 (results_hold_the_last_round plain)
           (planned (plan [press_enter])) new_world
           [("steps", VList [press_enter])] [press_enter]);
    [intro; reflexivity | reflexivity | reflexivity | discriminate | reflexivity].
Defined.

(** C10.  The success flag of every recorded result is computed from the
    text of the output alone: it is false exactly when the lower-cased text
    contains "failed".  So a [type_text] whose primitive call returned is
    recorded as failed when the typed text says "failed", and a step that
    reaches no primitive is recorded as successful. *)
Theorem success_is_read_off_the_output :
  (forall rt st w, Forall flag_from_text (recorded rt st w)) /\
  (exists call_made,
     execution_node plain
       (planned (plan [step "type_text" [("text", VStr "task failed")] "report"]))
       new_world
     = (inr (mkUpdate [] None
               (Some [mkResult (VStr "type_text")
                        (VDict [("text", VStr "task failed")]) (VStr "report")
                        "Typed: task failed" false])
               (Some 1) None None None),
        mkWorld [call_made] 0 1) /\
     callee call_made = Pyautogui "write" /\
     backend plain [] call_made = inr VNone) /\
  (execution_node plain (planned (plan [step "unknown_fn" [] "try it"])) new_world
   = (inr (mkUpdate [] None
             (Some [mkResult (VStr "unknown_fn") (VDict []) (VStr "try it")
                      "Unknown function: unknown_fn" true])
             (Some 1) None None None),
      mkWorld [] 0 1)).
Proof.
  split; [| split].
  - intros rt st w. unfold recorded.
    destruct (execution_node rt st w) as [[e | u] w'] eqn:E; [constructor |].
    apply execution_node_shape in E. destruct E as [_ [-> | [-> | (rs & -> & Hrs)]]];
      cbn; try constructor; assumption.
  - eexists. vm_compute. repeat split.
  - vm_compute. reflexivity.
Qed.

End DispatchClaims.

(** ** Rounds *)

Module RoundLemmas.
Import Tools LangGraph LoopFacts LoopLemmas NodeLemmas.

Lemma pause_on_device rt w :
  pause_returns rt ->
  exists out w',
    on_device (invoke rt Sleep (VDict [])) w = (inr out, w') /\
    plan_calls w' = plan_calls w.
Proof.
  intros Hp. destruct (Hp (device_calls w)) as (out & h' & H).
  exists out, (mkWorld h' (plan_calls w) (flag_reads w)).
  unfold on_device, zoom. rewrite H. split; reflexivity.
Qed.

Lemma planning_node_plans rt st w :
  pause_returns rt ->
  planner_never_done rt ->
  exists instructions w',
    planning_node rt st w
    = (inr (mkUpdate [SystemMessage; HumanMessage] (Some instructions)
              None None None None None), w') /\
    unfinished_plan instructions /\
    plan_calls w' = S (plan_calls w).
Proof.
  intros Hpause Hplan. unfold planning_node. unfold bind at 1.
  assert (H1 : exists w1,
             (if step_count st =? 0
              then tool <- lift (tool_at 4);;
                   on_device (invoke rt tool (VDict []));; ret tt
              else ret tt) w = (inr tt, w1) /\ plan_calls w1 = plan_calls w).
  { destruct (step_count st =? 0).
    - change (tool_at 4) with (@inr Exn Tool Sleep). rewrite bind_lift.
      destruct (pause_on_device rt w Hpause) as (out & w1 & Hrun & Hp).
      exists w1. rewrite (bind_returns _ _ _ _ _ Hrun). split; [reflexivity | exact Hp].
    - exists w. split; reflexivity. }
  destruct H1 as (w1 & -> & Hp1).
  destruct (Hplan (plan_calls w1) (user_request st) (step_count st))
    as (instructions & Hans & Hunf).
  exists instructions, (mkWorld (device_calls w1) (S (plan_calls w1)) (flag_reads w1)).
  unfold try_except, bind, get_instructions_for_objective. rewrite Hans.
  split; [reflexivity |]. split; [exact Hunf |]. cbn. congruence.
Qed.

Lemma validation_node_unfinished st d w :
  current_instructions st = VDict d ->
  truthy (param_or d "done" VNone) = false ->
  validation_node st w
  = (inr (if max_steps st <=? step_count st
          then mkUpdate [] None None None None (Some true)
                 (Some "Maximum steps exceeded")
          else mkUpdate [] None None None None (Some false) None), w).
Proof.
  intros Hci Hdone. unfold validation_node. cbv zeta. rewrite Hci.
  cbn [py_get]. fold (param_or d "done" VNone). rewrite bind_lift, Hdone.
  destruct (max_steps st <=? step_count st); reflexivity.
Qed.

Lemma screenshot_node_returns rt st w :
  pause_returns rt ->
  exists out w',
    screenshot_node rt st w
    = (inr (mkUpdate [] None None None (Some out) None None), w') /\
    plan_calls w' = plan_calls w.
Proof.
  intros Hpause. destruct (pause_on_device rt w Hpause) as (out & w' & Hrun & Hp).
  exists out, w'. unfold screenshot_node, try_except.
  change (tool_at 4) with (@inr Exn Tool Sleep). rewrite bind_lift.
  rewrite (bind_returns _ _ _ _ _ Hrun). split; [reflexivity | exact Hp].
Qed.

Lemma response_node_error st w :
  has_error st = true ->
  response_node st w
  = (inr (mkUpdate
            [AIMessage (VStr ("Task completed with error: "
                                ++ match error_message st with
                                   | Some m => m
                                   | None => ""
                                   end))]
            None None None None (Some true) None), w).
Proof. intros H. unfold response_node. rewrite H, bind_ret. reflexivity. Qed.

Lemma _should_continue_error rt st w :
  has_error st = true -> _should_continue rt st w = (inr Complete, w).
Proof.
  intros H. unfold _should_continue. rewrite H.
  destruct (is_complete st); reflexivity.
Qed.

Lemma _should_continue_go rt st w :
  is_complete st = false -> has_error st = false ->
  interrupt_flag rt (flag_reads w) = false ->
  _should_continue rt st w
  = (inr Continue, mkWorld (device_calls w) (plan_calls w) (S (flag_reads w))).
Proof.
  intros Hc He Hf. unfold _should_continue. rewrite Hc, He.
  unfold bind, interrupt_requested. rewrite Hf. reflexivity.
Qed.

(** With [k + 1] rounds left in the budget, a planner that never finishes
    and no interrupt, the run takes exactly [k + 1] rounds, each with one
    planner call, and ends on the step-budget error. *)
Lemma budget_is_exhausted rt :
  pause_returns rt -> planner_never_done rt -> never_interrupted rt ->
  forall k st w,
    has_error st = false ->
    max_steps st - step_count st = Z.of_nat (S k) ->
    exists st' w' ms,
      runs_to rt (4 * S k) planning st w (inr st') w' /\
      step_count st' = max_steps st /\
      plan_calls w' = (plan_calls w + S k)%nat /\
      is_complete st' = true /\
      error_message st' = Some "Maximum steps exceeded" /\
      messages st'
      = (ms ++ [AIMessage
                  (VStr "Task completed with error: Maximum steps exceeded")])%list.
Proof.
  intros Hpause Hplan Hflag. induction k as [| k IH]; intros st w Herr Hleft.
  - destruct (planning_node_plans rt st w Hpause Hplan)
      as (i & w1 & Hrun1 & (d & steps & -> & Hsteps & Hne & Hwf & Hdone) & Hp1).
    set (st1 := apply_update st
                  (mkUpdate [SystemMessage; HumanMessage] (Some (VDict d))
                     None None None None None)).
    destruct (execution_node_runs rt st1 w1 d steps Hflag eq_refl Hsteps Hne Hwf)
      as (rs & w2 & Hrun2 & Hp2 & _).
    set (st2 := apply_update st1
                  (mkUpdate [] None (Some rs) (Some (step_count st1 + 1))
                     None None None)).
    pose proof (validation_node_unfinished st2 d w2 eq_refl Hdone) as Hrun3.
    assert (Hmax : (max_steps st2 <=? step_count st2) = true).
    { apply Z.leb_le. cbn. lia. }
    rewrite Hmax in Hrun3.
    set (st3 := apply_update st2
                  (mkUpdate [] None None None None (Some true)
                     (Some "Maximum steps exceeded"))).
    assert (Herr3 : has_error st3 = true) by reflexivity.
    eexists _, w2, _. split; [| split; [| split; [| split; [| split]]]].
    + eapply runs_on; [exact Hrun1 | reflexivity |].
      eapply runs_on; [exact Hrun2 | reflexivity |].
      eapply runs_on; [exact Hrun3 | |].
      { etransitivity;
          [apply bind_returns, (_should_continue_error rt st3 w2 Herr3)
          | reflexivity]. }
      eapply runs_end; [apply (response_node_error st3 w2 Herr3) | reflexivity].
    + cbn. lia.
    + rewrite Hp2, Hp1. lia.
    + reflexivity.
    + reflexivity.
    + reflexivity.
  - destruct (planning_node_plans rt st w Hpause Hplan)
      as (i & w1 & Hrun1 & (d & steps & -> & Hsteps & Hne & Hwf & Hdone) & Hp1).
    set (st1 := apply_update st
                  (mkUpdate [SystemMessage; HumanMessage] (Some (VDict d))
                     None None None None None)).
    destruct (execution_node_runs rt st1 w1 d steps Hflag eq_refl Hsteps Hne Hwf)
      as (rs & w2 & Hrun2 & Hp2 & _).
    set (st2 := apply_update st1
                  (mkUpdate [] None (Some rs) (Some (step_count st1 + 1))
                     None None None)).
    pose proof (validation_node_unfinished st2 d w2 eq_refl Hdone) as Hrun3.
    assert (Hmax : (max_steps st2 <=? step_count st2) = false).
    { apply Z.leb_gt. cbn. lia. }
    rewrite Hmax in Hrun3.
    set (st3 := apply_update st2
                  (mkUpdate [] None None None None (Some false) None)).
    assert (Herr3 : has_error st3 = false).
    { unfold st3, st2, st1. rewrite !has_error_update. exact Herr. }
    destruct (screenshot_node_returns rt st3
                (mkWorld (device_calls w2) (plan_calls w2) (S (flag_reads w2))) Hpause)
      as (out & w4 & Hrun4 & Hp4).
    set (st4 := apply_update st3 (mkUpdate [] None None None (Some out) None None)).
    assert (Herr4 : has_error st4 = false).
    { unfold st4. rewrite has_error_update. exact Herr3. }
    assert (Hleft4 : max_steps st4 - step_count st4 = Z.of_nat (S k)).
    { cbn. lia. }
    destruct (IH st4 w4 Herr4 Hleft4)
      as (st' & w' & ms & Hruns & Hsc & Hpc & Hic & Hem & Hms).
    exists st', w', ms. split; [| repeat split; try assumption].
    + replace (4 * S (S k))%nat with (S (S (S (S (4 * S k))))) by lia.
      eapply runs_on; [exact Hrun1 | reflexivity |].
      eapply runs_on; [exact Hrun2 | reflexivity |].
      eapply runs_on; [exact Hrun3 | |].
      { etransitivity;
          [apply bind_returns, (_should_continue_go rt st3 w2 eq_refl Herr3 (Hflag _))
          | reflexivity]. }
      eapply runs_on; [exact Hrun4 | reflexivity |]. exact Hruns.
    + rewrite Hpc, Hp4. cbn [plan_calls]. rewrite Hp2, Hp1. lia.
Qed.

End RoundLemmas.

(** ** The control loop: claims *)

Module LoopClaims.
Import Tools LangGraph LoopFacts LoopLemmas NodeLemmas RoundLemmas Reference.

Lemma never_done_pause : pause_returns never_done.
Proof. intros h. eexists _, _. reflexivity. Qed.

Lemma never_done_planner : planner_never_done never_done.
Proof.
  intros k request step. eexists. split; [reflexivity |].
  eexists _, _. repeat split; try reflexivity. discriminate.
Qed.

Lemma never_done_flag : never_interrupted never_done.
Proof. intros k. reflexivity. Qed.

(** C5.  With [max_steps = 3], a planner that always answers with an
    unfinished plan, no interrupt and no failing pause, the run ends after
    exactly three rounds and three planner calls, and its one outcome is the
    step-budget error; any limit of at least 12 node executions lets the
    graph get there. *)
Theorem three_rounds_then_max_steps rt request :
  pause_returns rt -> planner_never_done rt -> never_interrupted rt ->
  exists st w ms,
    (forall limit, (12 <= limit)%nat ->
       execute_request rt limit request 3 new_world = (inr (Final st), w)) /\
    step_count st = 3 /\
    plan_calls w = 3%nat /\
    is_complete st = true /\
    error_message st = Some "Maximum steps exceeded" /\
    messages st
    = (ms ++ [AIMessage
                (VStr "Task completed with error: Maximum steps exceeded")])%list.
Proof.
  intros Hpause Hplan Hflag.
  destruct (budget_is_exhausted rt Hpause Hplan Hflag 2
              (initial_state request 3) new_world eq_refl eq_refl)
    as (st & w & ms & Hruns & Hsc & Hpc & Hic & Hem & Hms).
  exists st, w, ms. repeat split; try assumption.
  intros limit Hle. unfold execute_request, try_except.
  rewrite (bind_returns _ _ _ _ _ (runs_to_invoke _ _ _ _ _ _ _ Hruns limit Hle)).
  reflexivity.
Qed.

Lemma three_rounds_then_max_steps_witness :
  exists st w ms,
    (forall limit, (12 <= limit)%nat ->
       execute_request never_done limit "do it" 3 new_world = (inr (Final st), w)) /\
    step_count st = 3 /\
    plan_calls w = 3%nat /\
    is_complete st = true /\
    error_message st = Some "Maximum steps exceeded" /\
    messages st
    = (ms ++ [AIMessage
                (VStr "Task completed with error: Maximum steps exceeded")])%list.
Proof.
  apply (three_rounds_then_max_steps never_done "do it");
    [exact never_done_pause | exact never_done_planner | exact never_done_flag].
Defined.

(** One node execution short of that, the graph gives up instead. *)
Example eleven_is_not_enough :
  fst (execute_request never_done 11 "do it" 3 new_world)
  = inr (GraphFailed "Graph execution failed: Recursion limit reached").
Proof. vm_compute. reflexivity. Qed.

(** *** Errors and completion *)

Lemma planning_node_shape rt st w r w' :
  planning_node rt st w = (r, w') ->
  (plan_calls w' <= S (plan_calls w))%nat /\
  match r with
  | inr u => upd_error_message u = None \/
             exists e, upd_error_message u = Some ("Planning failed: " ++ exn_msg e)
  | inl _ => True
  end.
Proof.
  unfold planning_node. unfold bind at 1. intros H.
  destruct ((if step_count st =? 0
             then tool <- lift (tool_at 4);;
                  on_device (invoke rt tool (VDict []));; ret tt
             else ret tt) w) as [[e | []] w1] eqn:E1.
  - inversion H; subst.
    destruct (step_count st =? 0); [| discriminate].
    change (tool_at 4) with (@inr Exn Tool Sleep) in E1. rewrite bind_lift in E1.
    unfold bind in E1.
    destruct (on_device (invoke rt Sleep (VDict [])) w) as [[e' | out] w2] eqn:E2;
      [| discriminate].
    inversion E1; subst. apply on_device_frame in E2. split; [lia | exact I].
  - assert (Hp1 : plan_calls w1 = plan_calls w).
    { destruct (step_count st =? 0); [| inversion E1; reflexivity].
      change (tool_at 4) with (@inr Exn Tool Sleep) in E1. rewrite bind_lift in E1.
      unfold bind in E1.
      destruct (on_device (invoke rt Sleep (VDict [])) w) as [[e' | out] w2] eqn:E2;
        [discriminate |].
      inversion E1; subst. apply on_device_frame in E2. tauto. }
    unfold try_except, bind, get_instructions_for_objective, ret in H.
    destruct (planner rt (plan_calls w1) (user_request st) (step_count st))
      as [e | i]; inversion H; subst; cbn; split; try lia; eauto.
Qed.

Lemma validation_node_shape st w r w' :
  validation_node st w = (r, w') ->
  w' = w /\
  match r with
  | inr u => upd_error_message u = None \/
             upd_error_message u = Some "Maximum steps exceeded"
  | inl _ => True
  end.
Proof.
  unfold validation_node, bind, lift, ret. cbv zeta. intros H.
  destruct (py_get (current_instructions st) "done" VNone) as [e | done];
    [inversion H; subst; split; [reflexivity | exact I] |].
  destruct (truthy done).
  - destruct (py_getitem (current_instructions st) "done") as [e | content];
      [inversion H; subst; split; [reflexivity | exact I] |].
    destruct (ai_message content); inversion H; subst;
      split; try reflexivity; try exact I. left; reflexivity.
  - destruct (max_steps st <=? step_count st); inversion H; subst;
      split; try reflexivity; [right | left]; reflexivity.
Qed.

(** Once [error_message] is truthy, the run started at [planning] stops
    within four node executions: one more planning and execution pass, the
    validation check, and the response. *)
Lemma error_run_ends rt st w :
  has_error st = true ->
  exists r w',
    runs_to rt 4 planning st w r w' /\
    (plan_calls w' <= S (plan_calls w))%nat /\
    match r with
    | inr st' => has_error st' = true /\ is_complete st' = true
    | inl _ => True
    end.
Proof.
  intros Herr.
  destruct (planning_node rt st w) as [[e | u1] w1] eqn:E1;
    pose proof (planning_node_shape _ _ _ _ _ E1) as [Hp1 Hu1].
  { eexists _, _. split; [eapply runs_raise; exact E1 |].
    split; [exact Hp1 | exact I]. }
  set (st1 := apply_update st u1).
  assert (Herr1 : has_error st1 = true).
  { unfold st1. rewrite has_error_update.
    destruct Hu1 as [-> | [e ->]]; [exact Herr | reflexivity]. }
  destruct (execution_node rt st1 w1) as [[e | u2] w2] eqn:E2;
    pose proof (execution_node_shape _ _ _ _ _ E2) as [Hp2 Hu2].
  { eexists _, _. split.
    - eapply runs_on; [exact E1 | reflexivity |]. eapply runs_raise. exact E2.
    - split; [rewrite Hp2; exact Hp1 | exact I]. }
  set (st2 := apply_update st1 u2).
  assert (Herr2 : has_error st2 = true).
  { unfold st2. rewrite has_error_update.
    destruct Hu2 as [-> | [-> | (rs & -> & _)]]; try reflexivity. exact Herr1. }
  destruct (validation_node st2 w2) as [[e | u3] w3] eqn:E3;
    pose proof (validation_node_shape _ _ _ _ E3) as [-> Hu3].
  { eexists _, _. split.
    - eapply runs_on; [exact E1 | reflexivity |].
      eapply runs_on; [exact E2 | reflexivity |]. eapply runs_raise. exact E3.
    - split; [rewrite Hp2; exact Hp1 | exact I]. }
  set (st3 := apply_update st2 u3).
  assert (Herr3 : has_error st3 = true).
  { unfold st3. rewrite has_error_update.
    destruct Hu3 as [-> | ->]; [exact Herr2 | reflexivity]. }
  eexists _, _. split.
  - eapply runs_on; [exact E1 | reflexivity |].
    eapply runs_on; [exact E2 | reflexivity |].
    eapply runs_on; [exact E3 | |].
    { etransitivity;
        [apply bind_returns, (_should_continue_error rt st3 w2 Herr3) | reflexivity]. }
    eapply runs_end; [apply (response_node_error st3 w2 Herr3) | reflexivity].
  - split; [rewrite Hp2; exact Hp1 |].
    split; [| reflexivity]. rewrite has_error_update. exact Herr3.
Qed.

Lemma capture_fails_pause :
  on_device (invoke capture_fails Sleep (VDict []))
    (mkWorld [mkCall TimeSleep [VFloat 1] []] 1 1)
  = (inl (mkExn "OSError" "capture unavailable"),
     mkWorld [mkCall TimeSleep [VFloat 1] []; mkCall TimeSleep [VFloat 1] []] 1 1).
Proof. reflexivity. Qed.

(** C7, counterexample.  The planner answers once and then fails.  After
    the second (failed) planning, the stale plan is executed again and
    [validation_node] writes [is_complete = False]: the run is in a state
    whose [error_message] is set while [is_complete] is false. *)
Lemma error_set_while_not_complete :
  exists n st w,
    reachable planner_fails_second "do it" 10 n st w /\
    error_message st = Some "Planning failed: planner unreachable" /\
    is_complete st = false.
Proof.
  pose proof (reach_start planner_fails_second "do it" 10) as R.
  do 7 (eapply reach_step in R; [| vm_compute; reflexivity | vm_compute; reflexivity]).
  eexists _, _, _. split; [exact R |]. split; vm_compute; reflexivity.
Qed.

(** C7 as amended.  [error_message] does not force [is_complete], but it
    does force the routing: whenever it is truthy at the check after
    validation, the run goes to the response.  In particular, when the tool
    call of [screenshot_node] raises, the node sets [error_message] and
    leaves [is_complete] as it was; the run then makes one more planning and
    execution pass and stops at the next validation check (or earlier, in a
    node that raises), with at most one more planner call. *)
Theorem error_message_ends_run_at_next_validation rt :
  (forall st w, has_error st = true -> _should_continue rt st w = (inr Complete, w)) /\
  (forall st w e w1,
     on_device (invoke rt Sleep (VDict [])) w = (inl e, w1) ->
     let u := mkUpdate [] None None None None None
                (Some ("Screenshot failed: " ++ exn_msg e)) in
     screenshot_node rt st w = (inr u, w1) /\
     has_error (apply_update st u) = true /\
     is_complete (apply_update st u) = is_complete st /\
     exists r w2,
       runs_to rt 4 planning (apply_update st u) w1 r w2 /\
       (plan_calls w2 <= S (plan_calls w1))%nat /\
       match r with
       | inr st' => has_error st' = true /\ is_complete st' = true
       | inl _ => True
       end).
Proof.
  split; [intros st w; apply _should_continue_error |].
  intros st w e w1 Hfail u.
  assert (Herr : has_error (apply_update st u) = true) by reflexivity.
  split; [| split; [exact Herr | split; [reflexivity |]]].
  - unfold screenshot_node, try_except.
    change (tool_at 4) with (@inr Exn Tool Sleep). rewrite bind_lift.
    rewrite (bind_raises _ _ _ _ _ Hfail). reflexivity.
  - apply error_run_ends. exact Herr.
Qed.

Lemma error_message_ends_run_at_next_validation_witness :
  let st := apply_update (initial_state "do it" 10)
              (mkUpdate [] (Some (plan [press_enter])) None (Some 1) None None None) in
  let w := mkWorld [mkCall TimeSleep [VFloat 1] []] 1 1 in
  let w1 := mkWorld [mkCall TimeSleep [VFloat 1] []; mkCall TimeSleep [VFloat 1] []] 1 1 in
  let u := mkUpdate [] None None None None None
             (Some "Screenshot failed: capture unavailable") in
  screenshot_node capture_fails st w = (inr u, w1) /\
  has_error (apply_update st u) = true /\
  is_complete (apply_update st u) = is_complete st /\
  exists r w2,
    runs_to capture_fails 4 planning (apply_update st u) w1 r w2 /\
    (plan_calls w2 <= S (plan_calls w1))%nat /\
    match r with
    | inr st' => has_error st' = true /\ is_complete st' = true
    | inl _ => True
    end.
Proof.
  intros st w w1 u.
  apply (proj2 (error_message_ends_run_at_next_validation capture_fails) st w
           (mkExn "OSError" "capture unavailable") w1).
  exact capture_fails_pause.
Defined.

End LoopClaims.


(** ** The interrupt flag: claims *)

Module InterruptClaims.
Import Tools LangGraph LoopFacts LoopLemmas NodeLemmas RoundLemmas.
Import Reference Scenarios.





(** Through [execute_request] the flag is unset: the three steps of the
    first round are all dispatched and recorded. *)
Example execute_request_is_not_interrupted :
  exists st w,
    execute_request interrupt_unset 4 "do it" 1 new_world = (inr (Final st), w) /\
    map function (execution_results st) = [VStr "click"; VStr "write"; VStr "press"] /\
    error_message st = Some "Maximum steps exceeded".
Proof. eexists _, _. vm_compute. repeat split. Qed.

End InterruptClaims.
(** * Further properties of the Interpreter *)

Module InterpreterMore.
Import Interpreter InterpreterFacts Reference.

Lemma calm_is_quiet : quiet calm.
Proof. intros h c. exists VNone. reflexivity. Qed.

(** *** Cleaning the name *)

Lemma replace_absent old s :
  old <> "" -> contains old s = false -> replace s old "" = s.
Proof.
  intros Hold. unfold replace. induction s as [| c s IH]; intros H; [reflexivity |].
  cbn [replace_from]. cbn [contains] in H.
  destruct (String.prefix old (String c s)) eqn:E; [discriminate |].
  rewrite IH by exact H. reflexivity.
Qed.

(** X1.  A name with neither prefix is left as it is; a leading "pyautogui." or
    "time." is removed (and, because [replace] is used, so is every later
    occurrence of that prefix; when there is none the rest is kept as it
    is). *)
Theorem clean_name_strips_prefix :
  (forall s, startswith s "pyautogui." = false -> startswith s "time." = false ->
             clean_name s = s) /\
  (forall s, clean_name ("pyautogui." ++ s) = replace s "pyautogui." "") /\
  (forall s, clean_name ("time." ++ s) = replace s "time." "") /\
  (forall s, contains "pyautogui." s = false -> clean_name ("pyautogui." ++ s) = s) /\
  (forall s, contains "time." s = false -> clean_name ("time." ++ s) = s).
Proof.
  assert (P : forall s, clean_name ("pyautogui." ++ s) = replace s "pyautogui." "").
  { intros s. destruct s; reflexivity. }
  assert (T : forall s, clean_name ("time." ++ s) = replace s "time." "").
  { intros s. destruct s; reflexivity. }
  repeat split; try assumption.
  - intros s H1 H2. unfold clean_name. rewrite H1, H2. reflexivity.
  - intros s H. rewrite P. apply replace_absent; [discriminate | exact H].
  - intros s H. rewrite T. apply replace_absent; [discriminate | exact H].
Qed.

Lemma clean_name_strips_prefix_witness :
  clean_name "moveTo" = "moveTo" /\ clean_name "pyautogui.click" = "click" /\
  clean_name "time.sleep" = "sleep".
Proof.
  destruct clean_name_strips_prefix as (H1 & _ & _ & H4 & H5).
  split; [apply (H1 "moveTo"); reflexivity |].
  split; [apply (H4 "click"); reflexivity | apply (H5 "sleep"); reflexivity].
Defined.

(** *** The branches of [execute_function] *)

(** X2.  A sleep command with a truthy [secs] or [seconds] pauses for the first
    truthy of the two ([secs] first), after the warm-up, without consulting
    pyautogui. *)
Theorem sleep_uses_first_truthy_duration rt name d st :
  quiet rt ->
  clean_name name = "sleep" ->
  truthy (py_or (param_or d "secs" VNone) (param_or d "seconds" VNone)) = true ->
  execute_function rt (VStr name) (VDict d) st
  = (inr tt,
     issued st
       (warm_up ++
        [mkCall TimeSleep
           [py_or (param_or d "secs" VNone) (param_or d "seconds" VNone)] []])).
Proof.
  intros Hq Hname Htruthy.
  rewrite execute_function_after_warm_up by assumption.
  rewrite Hname. unfold call_by_name.
  change ("sleep" =? "sleep")%string with true. cbv beta iota.
  assert (Hget : get_first_truthy (VDict d) ["secs"; "seconds"]
                 = inr (py_or (param_or d "secs" VNone) (param_or d "seconds" VNone))).
  { cbn [get_first_truthy py_get]. unfold py_or, param_or.
    destruct (truthy match dict_get d "secs" with Some x => x | None => VNone end);
      reflexivity. }
  rewrite Hget. unfold bind at 1. rewrite bind_lift. unfold ret at 1.
  cbv beta iota. rewrite Htruthy, bind_lift.
  destruct (device_call_quiet rt
              (mkCall TimeSleep
                 [py_or (param_or d "secs" VNone) (param_or d "seconds" VNone)] [])
              (issued st warm_up) Hq) as [v Hv].
  rewrite (bind_returns _ _ _ _ _ Hv), issued_issued. reflexivity.
Qed.

Lemma sleep_uses_first_truthy_duration_witness :
  execute_function calm (VStr "time.sleep")
    (VDict [("secs", VInt 0); ("seconds", VInt 2)]) empty_store
  = (inr tt, issued empty_store (warm_up ++ [mkCall TimeSleep [VInt 2] []])).
Proof.
  apply (sleep_uses_first_truthy_duration calm "time.sleep"
           [("secs", VInt 0); ("seconds", VInt 2)] empty_store);
    [exact calm_is_quiet | reflexivity | reflexivity].
Defined.

(** X3.  A write command that carries one of the keys [string], [text],
    [message] types the first truthy of the three, in that order, with
    [interval] defaulting to 0.1. *)
Theorem write_accepts_three_aliases rt name d st :
  quiet rt ->
  clean_name name = "write" ->
  has_attr rt "write" = true ->
  (dict_has d "string" || dict_has d "text" || dict_has d "message")%bool = true ->
  execute_function rt (VStr name) (VDict d) st
  = (inr tt,
     issued st
       (warm_up ++
        [mkCall (Pyautogui "write")
           [py_or (param_or d "string" VNone)
              (py_or (param_or d "text" VNone) (param_or d "message" VNone))]
           [("interval", param_or d "interval" (VFloat (1 # 10)))]])).
Proof.
  intros Hq Hname Hattr Hany.
  rewrite execute_function_after_warm_up by assumption.
  rewrite Hname. unfold call_by_name.
  change ("write" =? "sleep")%string with false.
  change ("write" =? "write")%string with true. cbv beta iota.
  rewrite bind_ret, Hattr.
  assert (Hin : in_any ["string"; "text"; "message"] (VDict d) = inr true).
  { cbn [in_any py_in].
    destruct (dict_has d "string"); [reflexivity |].
    destruct (dict_has d "text"); [reflexivity |].
    destruct (dict_has d "message"); [reflexivity | discriminate]. }
  rewrite Hin, bind_lift. unfold do_write.
  assert (Hget : get_first_truthy (VDict d) ["string"; "text"; "message"]
                 = inr (py_or (param_or d "string" VNone)
                          (py_or (param_or d "text" VNone) (param_or d "message" VNone)))).
  { cbn [get_first_truthy py_get]. unfold py_or, param_or.
    destruct (truthy match dict_get d "string" with Some x => x | None => VNone end);
      [reflexivity |].
    destruct (truthy match dict_get d "text" with Some x => x | None => VNone end);
      reflexivity. }
  rewrite Hget, bind_lift. cbn [py_get].
  fold (param_or d "interval" (VFloat (1 # 10))). rewrite bind_lift.
  rewrite function_to_call_quiet by assumption. rewrite issued_issued. reflexivity.
Qed.

Lemma write_accepts_three_aliases_witness :
  execute_function calm (VStr "write") (VDict [("message", VStr "hi")]) empty_store
  = (inr tt,
     issued empty_store
       (warm_up ++
        [mkCall (Pyautogui "write") [VStr "hi"] [("interval", VFloat (1 # 10))]])).
Proof.
  apply (write_accepts_three_aliases calm "write" [("message", VStr "hi")] empty_store);
    [exact calm_is_quiet | reflexivity | reflexivity | reflexivity].
Defined.

(** X4.  A hotkey command is one call: the elements of a list [keys] as the
    positional arguments, a non-list [keys] alone, and without [keys] the
    values of all parameters in their order. *)
Theorem hotkey_is_one_combined_call rt name d st :
  quiet rt ->
  clean_name name = "hotkey" ->
  has_attr rt "hotkey" = true ->
  execute_function rt (VStr name) (VDict d) st
  = (inr tt,
     issued st
       (warm_up ++
        [mkCall (Pyautogui "hotkey")
           (match dict_get d "keys" with
            | Some (VList keys) => keys
            | Some key => [key]
            | None => dict_values d
            end) []])).
Proof.
  intros Hq Hname Hattr.
  rewrite execute_function_after_warm_up by assumption.
  rewrite Hname. unfold call_by_name.
  change ("hotkey" =? "sleep")%string with false.
  change ("hotkey" =? "write")%string with false.
  change ("hotkey" =? "press")%string with false.
  change ("hotkey" =? "hotkey")%string with true. cbv beta iota.
  rewrite bind_ret, Hattr, !bind_ret. unfold do_hotkey.
  cbn [py_in]. rewrite bind_lift. unfold dict_has.
  destruct (dict_get d "keys") as [keys |] eqn:E.
  - cbn [py_getitem]. rewrite E, bind_lift.
    destruct keys; rewrite function_to_call_quiet by assumption;
      rewrite issued_issued; reflexivity.
  - cbn [py_values]. rewrite bind_lift.
    rewrite function_to_call_quiet by assumption. rewrite issued_issued. reflexivity.
Qed.

Lemma hotkey_is_one_combined_call_witness :
  execute_function calm (VStr "hotkey")
    (VDict [("key1", VStr "command"); ("key2", VStr "space")]) empty_store
  = (inr tt,
     issued empty_store
       (warm_up ++ [mkCall (Pyautogui "hotkey") [VStr "command"; VStr "space"] []])).
Proof.
  apply (hotkey_is_one_combined_call calm "hotkey"
           [("key1", VStr "command"); ("key2", VStr "space")] empty_store);
    [exact calm_is_quiet | reflexivity | reflexivity].
Defined.

(** X5.  Any other attribute of pyautogui is called with the parameters as
    keyword arguments, unchanged. *)
Theorem other_functions_get_the_parameters rt name d st :
  quiet rt ->
  has_attr rt (clean_name name) = true ->
  existsb (String.eqb (clean_name name)) ["sleep"; "write"; "press"; "hotkey"; "click"]
  = false ->
  execute_function rt (VStr name) (VDict d) st
  = (inr tt, issued st (warm_up ++ [mkCall (Pyautogui (clean_name name)) [] d])).
Proof.
  intros Hq Hattr Hother.
  rewrite execute_function_after_warm_up by assumption.
  cbn [existsb] in Hother.
  destruct (clean_name name =? "sleep")%string eqn:E1; [discriminate |].
  destruct (clean_name name =? "write")%string eqn:E2; [discriminate |].
  destruct (clean_name name =? "press")%string eqn:E3; [discriminate |].
  destruct (clean_name name =? "hotkey")%string eqn:E4; [discriminate |].
  destruct (clean_name name =? "click")%string eqn:E5; [discriminate |].
  unfold call_by_name. rewrite E1, E2, E3, E4, E5, Hattr.
  rewrite !bind_ret. cbn [py_kwargs]. rewrite bind_lift.
  rewrite function_to_call_quiet by assumption. rewrite issued_issued. reflexivity.
Qed.

Lemma other_functions_get_the_parameters_witness :
  execute_function calm (VStr "pyautogui.moveTo")
    (VDict [("x", VInt 5); ("y", VInt 6)]) empty_store
  = (inr tt,
     issued empty_store
       (warm_up ++ [mkCall (Pyautogui "moveTo") [] [("x", VInt 5); ("y", VInt 6)]])).
Proof.
  apply (other_functions_get_the_parameters calm "pyautogui.moveTo"
           [("x", VInt 5); ("y", VInt 6)] empty_store);
    [exact calm_is_quiet | reflexivity | reflexivity].
Defined.

(** X6.  A name that is neither "sleep" nor an attribute of pyautogui is not an
    error: after the warm-up nothing is called, a line is printed and the
    command is reported successful. *)
Theorem unknown_function_is_reported_successful rt json_command name st :
  quiet rt ->
  dict_get json_command "function" = Some (VStr name) ->
  (clean_name name =? "sleep")%string = false ->
  has_attr rt (clean_name name) = false ->
  exists st',
    process_command rt json_command st = (inr true, st') /\
    calls st' = (calls st ++ warm_up)%list /\
    exists printed,
      stdout st' = (printed ++ [NoSuchFunction (clean_name name)])%list.
Proof.
  intros Hq Hf Hsleep Hattr.
  unfold process_command.
  unfold bind at 1, lift at 1. cbn [py_getitem]. rewrite Hf.
  unfold bind at 1, lift at 1. cbn [py_get].
  unfold bind at 1, lift at 1.
  unfold bind at 1, print at 1. unfold bind at 1, put at 1.
  cbn [calls stdout status_queue].
  unfold try_except. unfold bind at 1.
  rewrite execute_function_after_warm_up by assumption.
  unfold call_by_name. rewrite Hsleep, bind_ret, Hattr.
  unfold print, ret, issued. cbn [calls stdout status_queue].
  eexists. split; [reflexivity |]. cbn [calls stdout]. split; [reflexivity |].
  eexists. reflexivity.
Qed.

Lemma unknown_function_is_reported_successful_witness :
  exists st',
    process_command calm (command "unknown_fn" []) empty_store = (inr true, st') /\
    calls st' = ([] ++ warm_up)%list /\
    exists printed, stdout st' = (printed ++ [NoSuchFunction "unknown_fn"])%list.
Proof.
  apply (unknown_function_is_reported_successful calm (command "unknown_fn" [])
           "unknown_fn" empty_store);
    [exact calm_is_quiet | reflexivity | reflexivity | reflexivity].
Defined.

(** X7.  If the warm-up key press itself raises, the command fails there: the
    requested action is never attempted and [process_command] returns
    [False]. *)
Theorem failed_warm_up_fails_the_command rt json_command function_name st e :
  dict_get json_command "function" = Some function_name ->
  backend rt (calls st)
    (mkCall (Pyautogui "press") [VStr "command"] [("interval", VFloat (1 # 5))])
  = inl e ->
  exists st',
    process_command rt json_command st = (inr false, st') /\
    calls st'
    = (calls st ++
       [mkCall (Pyautogui "press") [VStr "command"] [("interval", VFloat (1 # 5))]])%list.
Proof.
  intros Hf Hb.
  unfold process_command.
  unfold bind at 1, lift at 1. cbn [py_getitem]. rewrite Hf.
  unfold bind at 1, lift at 1. cbn [py_get].
  unfold bind at 1, lift at 1.
  unfold bind at 1, print at 1. unfold bind at 1, put at 1.
  cbn [calls stdout status_queue].
  unfold try_except. unfold bind at 1. unfold execute_function.
  unfold bind at 1, device at 1, zoom, call. cbn [calls stdout status_queue].
  rewrite Hb.
  unfold bind, print, ret. cbn [calls stdout status_queue].
  eexists. split; reflexivity.
Qed.

Lemma failed_warm_up_fails_the_command_witness :
  exists st',
    process_command Scenarios.stuck (command "click" [("x", VInt 1); ("y", VInt 2)]) empty_store
    = (inr false, st') /\
    calls st'
    = ([] ++
       [mkCall (Pyautogui "press") [VStr "command"] [("interval", VFloat (1 # 5))]])%list.
Proof.
  apply (failed_warm_up_fails_the_command Scenarios.stuck
           (command "click" [("x", VInt 1); ("y", VInt 2)]) (VStr "click") empty_store
           (mkExn "FailSafeException" "PyAutoGUI fail-safe triggered"));
    reflexivity.
Defined.

End InterpreterMore.

(** * The status queue *)

Module StatusQueue.
Import Interpreter InterpreterFacts Reference Scenarios.

Lemma kq_ret {A} (a : A) : keeps_queue (ret a).
Proof. intros s r s' H. inversion H; reflexivity. Qed.

Lemma kq_lift {A} (x : Exn + A) : keeps_queue (lift x).
Proof. intros s r s' H. inversion H; reflexivity. Qed.

Lemma kq_print l : keeps_queue (print l).
Proof. intros s r s' H. inversion H; reflexivity. Qed.

Lemma kq_device {A} (m : Dev A) : keeps_queue (device m).
Proof.
  intros s r s' H. unfold device, zoom in H.
  destruct (m (calls s)) as [r0 c]. inversion H; reflexivity.
Qed.

Lemma kq_bind {A B} (m : M Store A) (k : A -> M Store B) :
  keeps_queue m -> (forall a, keeps_queue (k a)) -> keeps_queue (bind m k).
Proof.
  intros Hm Hk s r s' H. unfold bind in H.
  destruct (m s) as [[e | a] s1] eqn:E.
  - inversion H; subst. exact (Hm _ _ _ E).
  - rewrite (Hk a _ _ _ H). exact (Hm _ _ _ E).
Qed.

Lemma kq_function_to_call rt name a k : keeps_queue (function_to_call rt name a k).
Proof. apply kq_bind; [apply kq_device | intro; apply kq_ret]. Qed.

Lemma kq_for_each {A} (l : list A) (body : A -> M Store unit) :
  (forall x, keeps_queue (body x)) -> keeps_queue (for_each l body).
Proof.
  intros Hb. induction l as [| x l IH]; cbn [for_each].
  - apply kq_ret.
  - apply kq_bind; [apply Hb | intro; exact IH].
Qed.

Ltac kq :=
  repeat first
    [ apply kq_ret | apply kq_lift | apply kq_print | apply kq_device
    | apply kq_function_to_call
    | apply kq_for_each; intro
    | apply kq_bind; [| intro]
    | match goal with
      | |- keeps_queue (if ?b then _ else _) => destruct b
      | |- keeps_queue (match ?v with _ => _ end) => destruct v
      end ].

Lemma kq_execute_function rt function_name parameters :
  keeps_queue (execute_function rt function_name parameters).
Proof.
  unfold execute_function, call_by_name, do_write, do_press, do_hotkey, do_click.
  kq.
Qed.

(** [process_command] queues the justification of its command (or [None])
    exactly once, whatever the command does. *)
Lemma command_queues_its_justification rt json_command st :
  dict_has json_command "function" = true ->
  exists success st',
    process_command rt json_command st = (inr success, st') /\
    status_queue st' = (status_queue st ++ [justification_of json_command])%list.
Proof.
  unfold dict_has. destruct (dict_get json_command "function") as [f |] eqn:Hf;
    [intros _ | discriminate].
  unfold process_command.
  unfold bind at 1, lift at 1. cbn [py_getitem]. rewrite Hf.
  unfold bind at 1, lift at 1. cbn [py_get].
  unfold bind at 1, lift at 1.
  unfold bind at 1, print at 1. unfold bind at 1, put at 1.
  cbn [calls stdout status_queue].
  unfold try_except. unfold bind at 1.
  match goal with |- context [execute_function ?r ?f ?p ?s] =>
    destruct (execute_function r f p s) as [[e | []] s'] eqn:E;
    pose proof (kq_execute_function _ _ _ _ _ _ E) as Hq end;
    cbn [status_queue] in Hq.
  - unfold bind, print, ret. cbn [calls stdout status_queue].
    eexists false, _. split; [reflexivity |]. cbn [status_queue]. exact Hq.
  - eexists true, _. split; [reflexivity | exact Hq].
Qed.

(** X8.  One status message per attempted command, and no attempt after a
    failure.  [process_commands] attempts a prefix of the list, one command
    after the other, and returns in the store the last attempt left; the
    queue has received the justifications of exactly those commands, in
    order.  When [True] is returned the prefix is the whole list and every
    attempt succeeded; when [False] is returned the last command attempted
    is the first that failed. *)
Theorem commands_queue_one_message_per_attempt rt json_commands :
  forallb (fun c => dict_has c "function") json_commands = true ->
  forall st, exists success st' n outcomes,
    process_commands rt json_commands st = (inr success, st') /\
    (n <= List.length json_commands)%nat /\
    attempted rt (firstn n json_commands) st outcomes st' /\
    status_queue st'
    = (status_queue st ++ map justification_of (firstn n json_commands))%list /\
    (success = true ->
     n = List.length json_commands /\ outcomes = repeat true n) /\
    (success = false ->
     exists k, n = S k /\ outcomes = (repeat true k ++ [false])%list).
Proof.
  induction json_commands as [| c cs IH]; intros Hall st.
  - exists true, st, 0%nat, []. cbn. rewrite app_nil_r.
    split; [reflexivity |]. split; [lia |]. split; [constructor |].
    split; [reflexivity |]. split; [auto | discriminate].
  - cbn [forallb] in Hall. apply andb_prop in Hall as [Hc Hcs].
    destruct (command_queues_its_justification rt c st Hc) as (b & st1 & Hrun & Hq).
    cbn [process_commands]. rewrite (bind_returns _ _ _ _ _ Hrun).
    destruct b.
    + destruct (IH Hcs st1) as (b' & st' & n & bs & Hrun' & Hn & Hatt & Hq' & Ht & Hf).
      exists b', st', (S n), (true :: bs). split; [exact Hrun' |].
      split; [cbn; lia |].
      split; [cbn [firstn]; econstructor; [exact Hrun | exact Hatt] |].
      split; [rewrite Hq', Hq; cbn [firstn map]; rewrite <- app_assoc; reflexivity |].
      split.
      * intros H. destruct (Ht H) as [Hlen Hbs]. split; [cbn; lia |].
        cbn [repeat]. rewrite Hbs. reflexivity.
      * intros H. destruct (Hf H) as (k & Hk & Hbs). exists (S k).
        split; [lia |]. cbn [repeat app]. rewrite Hbs. reflexivity.
    + exists false, st1, 1%nat, [false]. split; [reflexivity |].
      split; [cbn; lia |].
      split; [cbn [firstn]; econstructor; [exact Hrun | constructor] |].
      split; [rewrite Hq; reflexivity |].
      split; [discriminate |].
      intros _. exists 0%nat. split; reflexivity.
Qed.

Lemma commands_queue_one_message_per_attempt_witness :
  exists success st' n outcomes,
    process_commands plain
      [[("function", VStr "press"); ("parameters", VDict [("key", VStr "a")]);
        ("human_readable_justification", VStr "first")];
       [("function", VStr "click");
        ("parameters", VDict [("x", VInt 0); ("y", VInt 0)]);
        ("human_readable_justification", VStr "second")];
       [("function", VStr "press"); ("parameters", VDict [("key", VStr "b")]);
        ("human_readable_justification", VStr "third")]]
      empty_store = (inr success, st') /\
    (n <= 3)%nat /\
    attempted plain
      (firstn n
         [[("function", VStr "press"); ("parameters", VDict [("key", VStr "a")]);
           ("human_readable_justification", VStr "first")];
          [("function", VStr "click");
           ("parameters", VDict [("x", VInt 0); ("y", VInt 0)]);
           ("human_readable_justification", VStr "second")];
          [("function", VStr "press"); ("parameters", VDict [("key", VStr "b")]);
           ("human_readable_justification", VStr "third")]])
      empty_store outcomes st' /\
    status_queue st'
    = ([] ++ map justification_of
         (firstn n
            [[("function", VStr "press"); ("parameters", VDict [("key", VStr "a")]);
              ("human_readable_justification", VStr "first")];
             [("function", VStr "click");
              ("parameters", VDict [("x", VInt 0); ("y", VInt 0)]);
              ("human_readable_justification", VStr "second")];
             [("function", VStr "press"); ("parameters", VDict [("key", VStr "b")]);
              ("human_readable_justification", VStr "third")]]))%list /\
    (success = true -> n = 3%nat /\ outcomes = repeat true n) /\
    (success = false ->
     exists k, n = S k /\ outcomes = (repeat true k ++ [false])%list).
Proof.
  apply (commands_queue_one_message_per_attempt plain
           [[("function", VStr "press"); ("parameters", VDict [("key", VStr "a")]);
             ("human_readable_justification", VStr "first")];
            [("function", VStr "click");
             ("parameters", VDict [("x", VInt 0); ("y", VInt 0)]);
             ("human_readable_justification", VStr "second")];
            [("function", VStr "press"); ("parameters", VDict [("key", VStr "b")]);
             ("human_readable_justification", VStr "third")]]).
  reflexivity.
Defined.

(** The run of the three commands above: the second trips the fail-safe, the
    third is never attempted. *)
Example second_of_three_fails :
  let r := process_commands plain
      [[("function", VStr "press"); ("parameters", VDict [("key", VStr "a")]);
        ("human_readable_justification", VStr "first")];
       [("function", VStr "click");
        ("parameters", VDict [("x", VInt 0); ("y", VInt 0)]);
        ("human_readable_justification", VStr "second")];
       [("function", VStr "press"); ("parameters", VDict [("key", VStr "b")]);
        ("human_readable_justification", VStr "third")]]
      empty_store in
  fst r = inr false /\
  status_queue (snd r) = [VStr "first"; VStr "second"] /\
  map callee (calls (snd r))
  = [Pyautogui "press"; TimeSleep; Pyautogui "press";
     Pyautogui "press"; TimeSleep; Pyautogui "click"].
Proof. vm_compute. repeat split. Qed.

(** *** The trace of calls *)

Lemma ap_ret {A} (a : A) : appends (ret a).
Proof. intros s r s' H. inversion H. exists []. rewrite app_nil_r. reflexivity. Qed.

Lemma ap_lift {A} (x : Exn + A) : appends (lift x).
Proof. intros s r s' H. inversion H. exists []. rewrite app_nil_r. reflexivity. Qed.

Lemma ap_print l : appends (print l).
Proof. intros s r s' H. inversion H. exists []. cbn. rewrite app_nil_r. reflexivity. Qed.

Lemma ap_call rt c : appends (device (call rt c)).
Proof.
  intros s r s' H. unfold device, zoom, call in H. inversion H. exists [c].
  reflexivity.
Qed.

Lemma ap_bind {A B} (m : M Store A) (k : A -> M Store B) :
  appends m -> (forall a, appends (k a)) -> appends (bind m k).
Proof.
  intros Hm Hk s r s' H. unfold bind in H.
  destruct (m s) as [[e | a] s1] eqn:E.
  - inversion H; subst. exact (Hm _ _ _ E).
  - destruct (Hm _ _ _ E) as [cs1 H1]. destruct (Hk a _ _ _ H) as [cs2 H2].
    exists (cs1 ++ cs2)%list. rewrite H2, H1, app_assoc. reflexivity.
Qed.

Lemma ap_function_to_call rt name a k : appends (function_to_call rt name a k).
Proof. apply ap_bind; [apply ap_call | intro; apply ap_ret]. Qed.

Lemma ap_for_each {A} (l : list A) (body : A -> M Store unit) :
  (forall x, appends (body x)) -> appends (for_each l body).
Proof.
  intros Hb. induction l as [| x l IH]; cbn [for_each].
  - apply ap_ret.
  - apply ap_bind; [apply Hb | intro; exact IH].
Qed.

Ltac ap :=
  repeat first
    [ apply ap_ret | apply ap_lift | apply ap_print | apply ap_call
    | apply ap_function_to_call
    | apply ap_for_each; intro
    | apply ap_bind; [| intro]
    | match goal with
      | |- appends (if ?b then _ else _) => destruct b
      | |- appends (match ?v with _ => _ end) => destruct v
      end ].

Lemma ap_call_by_name rt function_name parameters :
  appends (call_by_name rt function_name parameters).
Proof. unfold call_by_name, do_write, do_press, do_hotkey, do_click. ap. Qed.

(** X9.  Whatever the command and whatever the backend does, the first primitive
    call [process_command] issues is the warm-up press of the "command" key;
    the calls of the requested action, if any, come after it, and the trace
    of earlier calls is never rewritten. *)
Theorem every_command_starts_with_the_warm_up rt json_command st :
  dict_has json_command "function" = true ->
  exists success st' rest,
    process_command rt json_command st = (inr success, st') /\
    calls st'
    = (calls st ++
       mkCall (Pyautogui "press") [VStr "command"] [("interval", VFloat (1 # 5))]
       :: rest)%list.
Proof.
  unfold dict_has. destruct (dict_get json_command "function") as [f |] eqn:Hf;
    [intros _ | discriminate].
  unfold process_command.
  unfold bind at 1, lift at 1. cbn [py_getitem]. rewrite Hf.
  unfold bind at 1, lift at 1. cbn [py_get].
  unfold bind at 1, lift at 1.
  unfold bind at 1, print at 1. unfold bind at 1, put at 1.
  cbn [calls stdout status_queue].
  unfold try_except. unfold bind at 1. unfold execute_function.
  unfold bind at 1, device at 1, zoom, call at 1. cbn [calls stdout status_queue].
  destruct (backend rt (calls st) _) as [e | v].
  - unfold bind, print, ret. cbn [calls stdout status_queue].
    eexists false, _, []. split; reflexivity.
  - match goal with |- context [bind ?m ?k ?s] =>
      assert (Hap : appends (bind m k));
      [| destruct (bind m k s) as [[e | []] s'] eqn:E;
         destruct (Hap _ _ _ E) as [cs Hcs]; cbn [calls] in Hcs ]
    end.
    + apply ap_bind; [apply ap_call | intro].
      apply ap_bind; [apply ap_lift | intro]. apply ap_call_by_name.
    + unfold bind, print, ret. cbn [calls stdout status_queue].
      eexists false, _, cs. split; [reflexivity |]. cbn [calls].
      rewrite Hcs, <- app_assoc. reflexivity.
    + eexists true, _, cs. split; [reflexivity |].
      rewrite Hcs, <- app_assoc. reflexivity.
Qed.

Lemma every_command_starts_with_the_warm_up_witness :
  exists success st' rest,
    process_command plain (command "click" [("x", VInt 0); ("y", VInt 0)]) empty_store
    = (inr success, st') /\
    calls st'
    = ([] ++
       mkCall (Pyautogui "press") [VStr "command"] [("interval", VFloat (1 # 5))]
       :: rest)%list.
Proof.
  apply (every_command_starts_with_the_warm_up plain
           (command "click" [("x", VInt 0); ("y", VInt 0)]) empty_store).
  reflexivity.
Defined.


End StatusQueue.

(** * The tools and the dispatcher *)

Module ToolsMore.
Import Tools LangGraph LoopFacts LoopLemmas FailureFlag Reference Scenarios.

Lemma amo_stateless {A} (m : Dev A) : stateless m -> at_most_one_call m.
Proof.
  intros Hm h r h' H. destruct (Hm h) as [r0 H0]. rewrite H0 in H.
  inversion H; subst. left; reflexivity.
Qed.

Lemma amo_bind {A B} (m : Dev A) (k : A -> Dev B) :
  stateless m -> (forall a, at_most_one_call (k a)) -> at_most_one_call (bind m k).
Proof.
  intros Hm Hk h r h' H. unfold bind in H. destruct (Hm h) as [[e | a] H0];
    rewrite H0 in H.
  - inversion H; subst. left; reflexivity.
  - exact (Hk a h r h' H).
Qed.

Lemma amo_call {A} rt c (k : Value -> Dev A) :
  (forall v, stateless (k v)) -> at_most_one_call (bind (call rt c) k).
Proof.
  intros Hk h r h' H. unfold bind, call in H. right. exists c.
  destruct (backend rt h c) as [e | v].
  - inversion H; reflexivity.
  - destruct (Hk v (h ++ [c])%list) as [r0 Hr0]. rewrite Hr0 in H.
    inversion H; reflexivity.
Qed.

Lemma amo_try {A} (m : Dev A) (f : Exn -> A) :
  at_most_one_call m -> at_most_one_call (try_except m (fun e => ret (f e))).
Proof.
  intros Hm h r h' H. unfold try_except in H.
  destruct (m h) as [[e | out] h1] eqn:E; inversion H; subst;
    exact (Hm _ _ _ E).
Qed.

Lemma amo_click_tool rt x y clicks : at_most_one_call (click_tool rt x y clicks).
Proof. apply amo_try, amo_call. intro. stateless_tac. Qed.

Lemma amo_type_text rt text interval : at_most_one_call (type_text rt text interval).
Proof. apply amo_try, amo_call. intro. stateless_tac. Qed.

Lemma amo_press_key rt key presses : at_most_one_call (press_key rt key presses).
Proof. apply amo_try. destruct key; apply amo_call; intro; stateless_tac. Qed.

Lemma amo_hotkey rt keys : at_most_one_call (hotkey rt keys).
Proof. apply amo_try, amo_call. intro. stateless_tac. Qed.

Lemma amo_sleep_tool rt seconds : at_most_one_call (sleep_tool rt seconds).
Proof. apply amo_call. intro. stateless_tac. Qed.

Lemma amo_take_screenshot rt : at_most_one_call (take_screenshot rt).
Proof. apply amo_try, amo_call. intro. stateless_tac. Qed.

Lemma amo_invoke rt tool input : at_most_one_call (invoke rt tool input).
Proof.
  destruct tool; cbn [invoke]; apply amo_bind; try apply stateless_lift.
  - intros [[x y] clicks]. apply amo_click_tool.
  - intros [text interval]. apply amo_type_text.
  - intros [key presses]. apply amo_press_key.
  - intros keys. apply amo_hotkey.
  - intros seconds. apply amo_sleep_tool.
  - intros _. apply amo_take_screenshot.
Qed.

Lemma amo_func_varargs rt tool keys : at_most_one_call (func_varargs rt tool keys).
Proof.
  destruct tool; cbn [func_varargs];
    try (apply amo_stateless; intros h; eexists; reflexivity).
  apply amo_hotkey.
Qed.

(** X10.  Whatever the step, its dispatch through [_execute_step] issues at most
    one primitive call: there is no warm-up key press, and a list of keys is
    one [hotkey] call, not a [press] per key. *)
Theorem a_step_issues_at_most_one_call rt function_name parameters :
  at_most_one_call (_execute_step rt function_name parameters).
Proof.
  unfold _execute_step. apply amo_bind; [apply stateless_lift |]. intros name.
  cbv zeta.
  destruct (mapping_get tool_mapping _) as [tool_index |];
    [| apply amo_stateless, stateless_ret].
  apply amo_try.
  apply amo_bind; [apply stateless_lift |]. intros tool.
  repeat match goal with
         | |- at_most_one_call (if ?b then _ else _) => destruct b
         end.
  - apply amo_bind; [apply stateless_lift |]. intros has_text.
    apply amo_bind; [| intro; apply amo_invoke].
    destruct has_text; stateless_tac.
  - apply amo_bind; [apply stateless_lift |]. intros has_keys.
    apply amo_bind; [| intro; apply amo_invoke].
    destruct has_keys; stateless_tac.
  - apply amo_bind; [apply stateless_lift |]. intros has_keys.
    apply amo_bind; [destruct has_keys; stateless_tac |]. intros keys.
    destruct has_keys; [destruct keys |];
      first [apply amo_func_varargs | apply amo_invoke].
  - apply amo_bind; [apply stateless_lift |]. intros has_seconds.
    apply amo_bind; [| intro; apply amo_invoke].
    destruct has_seconds; stateless_tac.
    match goal with |- stateless (if ?b then _ else _) => destruct b end;
      stateless_tac.
  - apply amo_invoke.
Qed.

Lemma stripped_sleep rt name parameters h :
  stripped name = "sleep" ->
  _execute_step rt (VStr name) parameters h
  = try_except
      (has_seconds <- lift (py_in "seconds" parameters) ;;
       params <- (if (has_seconds : bool) then
                    seconds <- lift (py_getitem parameters "seconds") ;;
                    ret (VDict [("seconds", seconds)])
                  else
                    has_secs <- lift (py_in "secs" parameters) ;;
                    if (has_secs : bool) then
                      secs <- lift (py_getitem parameters "secs") ;;
                      ret (VDict [("seconds", secs)])
                    else ret (VDict [("seconds", VInt 1)])) ;;
       invoke rt Sleep params)
      (fun e => ret ("Execution failed: " ++ exn_msg e)) h.
Proof.
  intros Hs. unfold _execute_step. cbn [py_as_str]. rewrite bind_lift.
  cbv zeta. fold (stripped name). rewrite Hs.
  change (mapping_get tool_mapping "sleep") with (Some 4%nat). cbv iota.
  change (tool_at 4) with (@inr Exn Tool Sleep).
  unfold try_except. rewrite bind_lift. reflexivity.
Qed.

Lemma sleep_dispatch rt name d h :
  stripped name = "sleep" ->
  _execute_step rt (VStr name) (VDict d) h
  = try_except (invoke rt Sleep (sleep_input d))
      (fun e => ret ("Execution failed: " ++ exn_msg e)) h.
Proof.
  intros Hs. rewrite (stripped_sleep rt name (VDict d) h Hs).
  unfold try_except, sleep_input, param_or.
  unfold bind at 1, lift at 1. cbn [py_in]. unfold dict_has.
  destruct (dict_get d "seconds") as [seconds |] eqn:H1.
  - unfold bind at 1. unfold bind at 1, lift at 1. cbn [py_getitem].
    rewrite H1. reflexivity.
  - unfold bind at 1. unfold bind at 1, lift at 1. cbn [py_in]. unfold dict_has.
    destruct (dict_get d "secs") as [secs |] eqn:H2.
    + unfold bind at 1, lift at 1. cbn [py_getitem]. rewrite H2. reflexivity.
    + reflexivity.
Qed.

(** X11.  A sleep step takes its duration from ["seconds"] when that key is
    present, whatever its value, else from ["secs"], else it is 1; the
    sleep tool receives that one entry and no other key of the step. *)
Theorem sleep_step_prefers_seconds rt name d h :
  stripped name = "sleep" ->
  _execute_step rt (VStr name) (VDict d) h
  = try_except (invoke rt Sleep (sleep_input d))
      (fun e => ret ("Execution failed: " ++ exn_msg e)) h.
Proof. exact (sleep_dispatch rt name d h). Qed.

Lemma sleep_step_prefers_seconds_witness :
  _execute_step plain (VStr "pyautogui.sleep")
    (VDict [("secs", VInt 3); ("seconds", VInt 0)]) []
  = try_except (invoke plain Sleep (VDict [("seconds", VInt 0)]))
      (fun e => ret ("Execution failed: " ++ exn_msg e)) [].
Proof.
  apply (sleep_step_prefers_seconds plain "pyautogui.sleep"
           [("secs", VInt 3); ("seconds", VInt 0)] []).
  reflexivity.
Defined.

(** X12.  The sleep tool has no [try] of its own: when [time.sleep] raises, the
    tool raises, and it is the dispatcher that turns the exception into the
    output "Execution failed: ...", after the call has been made. *)
Theorem failed_sleep_is_caught_by_the_dispatcher rt name d seconds e h :
  stripped name = "sleep" ->
  bind_sleep rt (sleep_input d) = inr seconds ->
  backend rt h (mkCall TimeSleep [seconds] []) = inl e ->
  sleep_tool rt seconds h = (inl e, (h ++ [mkCall TimeSleep [seconds] []])%list) /\
  _execute_step rt (VStr name) (VDict d) h
  = (inr ("Execution failed: " ++ exn_msg e),
     (h ++ [mkCall TimeSleep [seconds] []])%list).
Proof.
  intros Hs Hb He.
  assert (Htool : sleep_tool rt seconds h
                  = (inl e, (h ++ [mkCall TimeSleep [seconds] []])%list)).
  { unfold sleep_tool, bind, call. rewrite He. reflexivity. }
  split; [exact Htool |].
  rewrite (sleep_dispatch rt name d h Hs).
  unfold try_except. cbn [invoke]. rewrite Hb, bind_lift, Htool. reflexivity.
Qed.

Lemma failed_sleep_is_caught_by_the_dispatcher_witness :
  sleep_tool stuck (VInt 2) []
  = (inl (mkExn "FailSafeException" "PyAutoGUI fail-safe triggered"),
     ([] ++ [mkCall TimeSleep [VInt 2] []])%list) /\
  _execute_step stuck (VStr "sleep") (VDict [("secs", VInt 2)]) []
  = (inr ("Execution failed: "
            ++ exn_msg (mkExn "FailSafeException" "PyAutoGUI fail-safe triggered")),
     ([] ++ [mkCall TimeSleep [VInt 2] []])%list).
Proof.
  apply (failed_sleep_is_caught_by_the_dispatcher stuck "sleep" [("secs", VInt 2)]
           (VInt 2) (mkExn "FailSafeException" "PyAutoGUI fail-safe triggered") []);
    reflexivity.
Defined.

(** X13.  A key list with an element that is not a string: the [hotkey] call is
    made first, then building the output fails in [join], and the tool
    reports a failed key press although the keys were sent. *)
Theorem press_key_reports_failure_after_the_call rt keys presses h v e :
  backend rt h (mkCall (Pyautogui "hotkey") keys []) = inr v ->
  py_join "+" keys = inl e ->
  press_key rt (VList keys) presses h
  = (inr ("Key press failed: " ++ exn_msg e),
     (h ++ [mkCall (Pyautogui "hotkey") keys []])%list) /\
  contains "failed" (lower ("Key press failed: " ++ exn_msg e)) = true.
Proof.
  intros Hb Hj. split.
  - unfold press_key, try_except. unfold bind at 1, call at 1. rewrite Hb.
    unfold bind, lift. rewrite Hj. reflexivity.
  - apply (failed_flagged "Key press " (exn_msg e)).
Qed.

Lemma press_key_reports_failure_after_the_call_witness :
  press_key calm (VList [VStr "ctrl"; VInt 1]) (VInt 1) []
  = (inr ("Key press failed: "
            ++ exn_msg (TypeError "sequence item: expected str instance")),
     ([] ++ [mkCall (Pyautogui "hotkey") [VStr "ctrl"; VInt 1] []])%list) /\
  contains "failed"
    (lower ("Key press failed: "
              ++ exn_msg (TypeError "sequence item: expected str instance"))) = true.
Proof.
  apply (press_key_reports_failure_after_the_call calm [VStr "ctrl"; VInt 1] (VInt 1)
           [] VNone (TypeError "sequence item: expected str instance"));
    reflexivity.
Defined.

End ToolsMore.

(** * Nodes and runs, continued *)

Module NodesMore.
Import Tools LangGraph LoopFacts LoopLemmas FailureFlag NodeLemmas RoundLemmas.
Import Reference Scenarios.

Lemma runtime_pause p f : pause_returns (runtime p f).
Proof. intros h. eexists _, _. reflexivity. Qed.

Lemma only_paused_refl w : only_paused w w.
Proof. left; reflexivity. Qed.

Lemma only_paused_calls w w1 w2 :
  only_paused w w1 -> device_calls w2 = device_calls w1 -> only_paused w w2.
Proof. unfold only_paused. intros H ->. exact H. Qed.

Lemma invoke_sleep_pauses rt input h r h' :
  invoke rt Sleep input h = (r, h') ->
  h' = h \/ exists seconds, h' = (h ++ [mkCall TimeSleep [seconds] []])%list.
Proof.
  cbn [invoke]. unfold bind at 1, lift at 1.
  destruct (bind_sleep rt input) as [e | seconds].
  - intros H. inversion H. left; reflexivity.
  - unfold sleep_tool, bind, call. right. exists seconds.
    destruct (backend rt h _); inversion H; reflexivity.
Qed.

Lemma pause_only_pauses rt w r w' :
  on_device (invoke rt Sleep (VDict [])) w = (r, w') ->
  only_paused w w' /\ plan_calls w' = plan_calls w.
Proof.
  intros H. destruct (on_device_frame _ _ _ _ H) as (Hp & _ & Hrun).
  split; [| exact Hp]. exact (invoke_sleep_pauses _ _ _ _ _ Hrun).
Qed.

(** X14.  The call [self.tools[4].invoke({})] that [screenshot_node] and
    [planning_node] make for a screenshot reaches the sleep tool, the fifth
    entry of the tool list.  Whatever the state and the runtime, either node
    leaves the device alone or pauses it once with [time.sleep]; no screen
    capture is ever requested, and [screenshot_node] does not raise. *)
Theorem nodes_pause_instead_of_capturing rt st w :
  (exists u, fst (screenshot_node rt st w) = inr u) /\
  only_paused w (snd (screenshot_node rt st w)) /\
  only_paused w (snd (planning_node rt st w)).
Proof.
  split; [| split].
  - unfold screenshot_node.
    destruct (try_except_total
                (tool <- lift (tool_at 4) ;;
                 screenshot_result <- on_device (invoke rt tool (VDict [])) ;;
                 ret (mkUpdate [] None None None (Some screenshot_result) None None))
                (fun e => mkUpdate [] None None None None None
                            (Some ("Screenshot failed: " ++ exn_msg e))) w)
      as (u & w' & H).
    exists u. rewrite H. reflexivity.
  - unfold screenshot_node, try_except.
    change (tool_at 4) with (@inr Exn Tool Sleep). rewrite bind_lift.
    unfold bind at 1.
    destruct (on_device (invoke rt Sleep (VDict [])) w) as [[e | out] w1] eqn:E;
      exact (proj1 (pause_only_pauses _ _ _ _ E)).
  - unfold planning_node. unfold bind at 1.
    destruct (step_count st =? 0).
    + change (tool_at 4) with (@inr Exn Tool Sleep). rewrite bind_lift.
      unfold bind at 1.
      destruct (on_device (invoke rt Sleep (VDict [])) w) as [[e | out] w1] eqn:E;
        pose proof (proj1 (pause_only_pauses _ _ _ _ E)) as Hp.
      * exact Hp.
      * unfold ret at 1. cbv beta iota.
        apply (only_paused_calls w w1); [exact Hp |].
        unfold try_except, bind, get_instructions_for_objective, ret.
        destruct (planner rt (plan_calls w1) (user_request st) (step_count st));
          reflexivity.
    + unfold ret at 1. cbv beta iota.
      apply (only_paused_calls w w); [apply only_paused_refl |].
      unfold try_except, bind, get_instructions_for_objective, ret.
      destruct (planner rt (plan_calls w) (user_request st) (step_count st));
        reflexivity.
Qed.

(** [planning_node] for a given answer of the planner. *)
Lemma planning_node_answer rt st w :
  pause_returns rt ->
  exists w',
    planning_node rt st w
    = (inr (planning_update
              (planner rt (plan_calls w) (user_request st) (step_count st))), w') /\
    plan_calls w' = S (plan_calls w) /\
    only_paused w w'.
Proof.
  intros Hpause. unfold planning_node. unfold bind at 1.
  assert (H1 : exists w1,
             (if step_count st =? 0
              then tool <- lift (tool_at 4);;
                   on_device (invoke rt tool (VDict []));; ret tt
              else ret tt) w = (inr tt, w1) /\ plan_calls w1 = plan_calls w /\
             only_paused w w1).
  { destruct (step_count st =? 0).
    - change (tool_at 4) with (@inr Exn Tool Sleep). rewrite bind_lift.
      destruct (pause_on_device rt w Hpause) as (out & w1 & Hrun & Hp).
      exists w1. rewrite (bind_returns _ _ _ _ _ Hrun).
      split; [reflexivity |]. split; [exact Hp |].
      exact (proj1 (pause_only_pauses _ _ _ _ Hrun)).
    - exists w. split; [reflexivity |]. split; [reflexivity |].
      apply only_paused_refl. }
  destruct H1 as (w1 & -> & Hp1 & Ho1).
  exists (mkWorld (device_calls w1) (S (plan_calls w1)) (flag_reads w1)).
  unfold try_except, bind, get_instructions_for_objective. rewrite Hp1.
  split; [| split; [reflexivity | exact Ho1]].
  destruct (planner rt (plan_calls w) (user_request st) (step_count st));
    reflexivity.
Qed.

Lemma validation_node_finished st d done w :
  current_instructions st = VDict d ->
  dict_get d "done" = Some done ->
  truthy done = true ->
  ai_message done = inr (AIMessage done) ->
  validation_node st w
  = (inr (mkUpdate [AIMessage done] None None None None (Some true) None), w).
Proof.
  intros Hci Hd Ht Hm. unfold validation_node. cbv zeta. rewrite Hci.
  cbn [py_get]. rewrite Hd, bind_lift, Ht.
  cbn [py_getitem]. rewrite Hd, bind_lift, Hm, bind_lift. reflexivity.
Qed.

Lemma _should_continue_complete rt st w :
  is_complete st = true -> _should_continue rt st w = (inr Complete, w).
Proof. intros H. unfold _should_continue. rewrite H. reflexivity. Qed.

Lemma response_node_done st d done w :
  has_error st = false ->
  current_instructions st = VDict d ->
  dict_get d "done" = Some done ->
  ai_message done = inr (AIMessage done) ->
  response_node st w
  = (inr (mkUpdate [AIMessage done] None None None None (Some true) None), w).
Proof.
  intros He Hci Hd Hm. unfold response_node. rewrite He, Hci.
  cbn [py_get]. rewrite Hd, bind_lift, Hm, bind_lift. reflexivity.
Qed.

(** X15.  A plan that carries steps and a truthy ["done"] that [AIMessage]
    accepts as content (a non-empty string, for one) ends the run in that
    round: the steps are dispatched, no further planning takes place, and
    the ["done"] text is appended to the conversation twice, once by
    [validation_node] and once by [response_node]. *)
Theorem finished_plan_ends_the_run rt st w d steps done :
  pause_returns rt -> never_interrupted rt ->
  has_error st = false ->
  planner rt (plan_calls w) (user_request st) (step_count st) = inr (VDict d) ->
  dict_get d "steps" = Some (VList steps) ->
  steps <> [] ->
  forallb well_formed_step steps = true ->
  dict_get d "done" = Some done ->
  truthy done = true ->
  ai_message done = inr (AIMessage done) ->
  exists st' w' h,
    (forall limit, (4 <= limit)%nat ->
       graph_invoke rt limit planning st w = (inr st', w')) /\
    plan_calls w' = S (plan_calls w) /\
    step_count st' = step_count st + 1 /\
    dispatched_in_order rt steps (execution_results st') h (device_calls w') /\
    is_complete st' = true /\
    error_message st' = error_message st /\
    messages st'
    = (messages st
       ++ [SystemMessage; HumanMessage; AIMessage done; AIMessage done])%list.
Proof.
  intros Hpause Hflag Herr Hans Hsteps Hne Hwf Hd Ht Hm.
  destruct (planning_node_answer rt st w Hpause) as (w1 & Hrun1 & Hp1 & _).
  rewrite Hans in Hrun1. cbn [planning_update] in Hrun1.
  set (st1 := apply_update st
                (mkUpdate [SystemMessage; HumanMessage] (Some (VDict d))
                   None None None None None)).
  destruct (execution_node_runs rt st1 w1 d steps Hflag eq_refl Hsteps Hne Hwf)
    as (rs & w2 & Hrun2 & Hp2 & Hchain).
  set (st2 := apply_update st1
                (mkUpdate [] None (Some rs) (Some (step_count st1 + 1))
                   None None None)).
  pose proof (validation_node_finished st2 d done w2 eq_refl Hd Ht Hm) as Hrun3.
  set (st3 := apply_update st2
                (mkUpdate [AIMessage done] None None None None (Some true) None)).
  assert (Herr3 : has_error st3 = false).
  { unfold st3, st2, st1. rewrite !has_error_update. exact Herr. }
  pose proof (response_node_done st3 d done w2 Herr3 eq_refl Hd Hm) as Hrun4.
  set (st4 := apply_update st3
                (mkUpdate [AIMessage done] None None None None (Some true) None)).
  assert (Hruns : runs_to rt 4 planning st w (inr st4) w2).
  { eapply runs_on; [exact Hrun1 | reflexivity |].
    eapply runs_on; [exact Hrun2 | reflexivity |].
    eapply runs_on; [exact Hrun3 | |].
    { etransitivity;
        [apply bind_returns, (_should_continue_complete rt st3 w2 eq_refl)
        | reflexivity]. }
    eapply runs_end; [exact Hrun4 | reflexivity]. }
  exists st4, w2, (device_calls w1).
  split; [intros limit Hle; exact (runs_to_invoke _ _ _ _ _ _ _ Hruns limit Hle) |].
  split; [rewrite Hp2; exact Hp1 |].
  split; [reflexivity |].
  split; [exact Hchain |].
  split; [reflexivity |].
  split; [destruct st as [? ? ? ? ? ? ? ? [m |]]; reflexivity |].
  cbn. rewrite app_nil_r, <- !app_assoc. reflexivity.
Qed.

Lemma finished_plan_ends_the_run_witness :
  exists st' w' h,
    (forall limit, (4 <= limit)%nat ->
       graph_invoke done_at_once limit planning (initial_state "do it" 10) new_world
       = (inr st', w')) /\
    plan_calls w' = S (plan_calls new_world) /\
    step_count st' = step_count (initial_state "do it" 10) + 1 /\
    dispatched_in_order done_at_once [press_enter] (execution_results st') h
      (device_calls w') /\
    is_complete st' = true /\
    error_message st' = error_message (initial_state "do it" 10) /\
    messages st'
    = (messages (initial_state "do it" 10)
       ++ [SystemMessage; HumanMessage; AIMessage (VStr "all done");
           AIMessage (VStr "all done")])%list.
Proof.
  apply (finished_plan_ends_the_run done_at_once (initial_state "do it" 10) new_world
           [("steps", VList [press_enter]); ("done", VStr "all done")]
           [press_enter] (VStr "all done")).
  - apply runtime_pause.
  - intros k. reflexivity.
  - reflexivity.
  - reflexivity.
  - reflexivity.
  - discriminate.
  - reflexivity.
  - reflexivity.
  - reflexivity.
  - reflexivity.
Defined.

Lemma dict_with_key_truthy d k v : dict_get d k = Some v -> truthy (VDict d) = true.
Proof. destruct d; [discriminate | reflexivity]. Qed.

Lemma execution_node_no_steps rt st d w :
  current_instructions st = VDict d ->
  truthy (param_or d "steps" VNone) = false ->
  execution_node rt st w = (inr no_instructions, w).
Proof.
  intros Hci Hs. unfold execution_node. rewrite Hci.
  destruct (truthy (VDict d)); cbn [negb]; [| reflexivity].
  cbn [py_get]. fold (param_or d "steps" VNone). rewrite bind_lift, Hs.
  reflexivity.
Qed.

(** X16.  A plan that reports completion, with a ["done"] that [AIMessage]
    accepts as content, and carries no steps ends the run with an error:
    nothing is dispatched, the ["done"] text is appended by
    [validation_node], and the final answer is the error "No instructions to
    execute". *)
Theorem finished_plan_without_steps_is_an_error rt st w d done :
  pause_returns rt ->
  planner rt (plan_calls w) (user_request st) (step_count st) = inr (VDict d) ->
  truthy (param_or d "steps" VNone) = false ->
  dict_get d "done" = Some done ->
  truthy done = true ->
  ai_message done = inr (AIMessage done) ->
  exists st' w',
    (forall limit, (4 <= limit)%nat ->
       graph_invoke rt limit planning st w = (inr st', w')) /\
    only_paused w w' /\
    step_count st' = step_count st /\
    execution_results st' = execution_results st /\
    error_message st' = Some "No instructions to execute" /\
    messages st'
    = (messages st
       ++ [SystemMessage; HumanMessage; AIMessage done;
           AIMessage
             (VStr "Task completed with error: No instructions to execute")])%list.
Proof.
  intros Hpause Hans Hsteps Hd Ht Hm.
  destruct (planning_node_answer rt st w Hpause) as (w1 & Hrun1 & Hp1 & Ho1).
  rewrite Hans in Hrun1. cbn [planning_update] in Hrun1.
  set (st1 := apply_update st
                (mkUpdate [SystemMessage; HumanMessage] (Some (VDict d))
                   None None None None None)).
  pose proof (execution_node_no_steps rt st1 d w1 eq_refl Hsteps) as Hrun2.
  set (st2 := apply_update st1 no_instructions).
  pose proof (validation_node_finished st2 d done w1 eq_refl Hd Ht Hm) as Hrun3.
  set (st3 := apply_update st2
                (mkUpdate [AIMessage done] None None None None (Some true) None)).
  assert (Herr3 : has_error st3 = true) by reflexivity.
  assert (Hruns : runs_to rt 4 planning st w
                    (inr (apply_update st3
                            (mkUpdate
                               [AIMessage
                                  (VStr ("Task completed with error: "
                                           ++ match error_message st3 with
                                              | Some m => m
                                              | None => ""
                                              end))]
                               None None None None (Some true) None))) w1).
  { eapply runs_on; [exact Hrun1 | reflexivity |].
    eapply runs_on; [exact Hrun2 | reflexivity |].
    eapply runs_on; [exact Hrun3 | |].
    { etransitivity;
        [apply bind_returns, (_should_continue_error rt st3 w1 Herr3)
        | reflexivity]. }
    eapply runs_end; [apply (response_node_error st3 w1 Herr3) | reflexivity]. }
  eexists _, w1.
  split; [intros limit Hle; exact (runs_to_invoke _ _ _ _ _ _ _ Hruns limit Hle) |].
  split; [exact Ho1 |].
  split; [reflexivity |].
  split; [reflexivity |].
  split; [reflexivity |].
  cbn. rewrite !app_nil_r, <- !app_assoc. reflexivity.
Qed.

Lemma finished_plan_without_steps_is_an_error_witness :
  exists st' w',
    (forall limit, (4 <= limit)%nat ->
       graph_invoke done_without_steps limit planning (initial_state "do it" 10)
         new_world = (inr st', w')) /\
    only_paused new_world w' /\
    step_count st' = step_count (initial_state "do it" 10) /\
    execution_results st' = execution_results (initial_state "do it" 10) /\
    error_message st' = Some "No instructions to execute" /\
    messages st'
    = (messages (initial_state "do it" 10)
       ++ [SystemMessage; HumanMessage; AIMessage (VStr "all done");
           AIMessage
             (VStr "Task completed with error: No instructions to execute")])%list.
Proof.
  apply (finished_plan_without_steps_is_an_error done_without_steps
           (initial_state "do it" 10) new_world
           [("steps", VList []); ("done", VStr "all done")] (VStr "all done")).
  - apply runtime_pause.
  - reflexivity.
  - reflexivity.
  - reflexivity.
  - reflexivity.
  - reflexivity.
Defined.

(** X17.  When the very first planning call fails, the message "Planning failed:
    ..." never reaches the caller: [execution_node] replaces it, and
    [validation_node] then calls [.get] on the [None] that
    [current_instructions] still is.  The exception leaves the graph and
    [execute_request] returns its own two-key failure. *)
Theorem first_planning_failure_fails_the_graph rt request max_steps e :
  pause_returns rt ->
  planner rt 0 request 0 = inl e ->
  exists w',
    (forall limit, (3 <= limit)%nat ->
       execute_request rt limit request max_steps new_world
       = (inr (GraphFailed
                 ("Graph execution failed: "
                    ++ exn_msg (AttributeError "object has no attribute 'get'"))),
          w')) /\
    plan_calls w' = 1%nat /\
    only_paused new_world w'.
Proof.
  intros Hpause Hans.
  destruct (planning_node_answer rt (initial_state request max_steps) new_world Hpause)
    as (w1 & Hrun1 & Hp1 & Ho1).
  cbn [plan_calls new_world user_request step_count initial_state] in Hrun1.
  rewrite Hans in Hrun1.
  set (st1 := apply_update (initial_state request max_steps) (planning_update (inl e))).
  assert (Hrun2 : execution_node rt st1 w1 = (inr no_instructions, w1)) by reflexivity.
  set (st2 := apply_update st1 no_instructions).
  assert (Hrun3 : validation_node st2 w1
                  = (inl (AttributeError "object has no attribute 'get'"), w1))
    by reflexivity.
  assert (Hruns : runs_to rt 3 planning (initial_state request max_steps) new_world
                    (inl (AttributeError "object has no attribute 'get'")) w1).
  { eapply runs_on; [exact Hrun1 | reflexivity |].
    eapply runs_on; [exact Hrun2 | reflexivity |].
    eapply runs_raise. exact Hrun3. }
  exists w1. split; [| split; [exact Hp1 | exact Ho1]].
  intros limit Hle. unfold execute_request, try_except.
  rewrite (bind_raises _ _ _ _ _ (runs_to_invoke _ _ _ _ _ _ _ Hruns limit Hle)).
  reflexivity.
Qed.

Lemma first_planning_failure_fails_the_graph_witness :
  exists w',
    (forall limit, (3 <= limit)%nat ->
       execute_request planner_down limit "do it" 10 new_world
       = (inr (GraphFailed
                 ("Graph execution failed: "
                    ++ exn_msg (AttributeError "object has no attribute 'get'"))),
          w')) /\
    plan_calls w' = 1%nat /\
    only_paused new_world w'.
Proof.
  apply (first_planning_failure_fails_the_graph planner_down "do it" 10
           (mkExn "ConnectionError" "planner unreachable")).
  - apply runtime_pause.
  - reflexivity.
Defined.

(** X18.  When the pause of the first [planning_node] raises, the exception is
    outside every [try] of the node: the graph fails before the planner is
    consulted. *)
Theorem failed_first_pause_fails_the_graph rt request max_steps seconds e limit :
  bind_sleep rt (VDict []) = inr seconds ->
  backend rt [] (mkCall TimeSleep [seconds] []) = inl e ->
  execute_request rt (S limit) request max_steps new_world
  = (inr (GraphFailed ("Graph execution failed: " ++ exn_msg e)),
     mkWorld [mkCall TimeSleep [seconds] []] 0 0).
Proof.
  intros Hb He.
  assert (Hrun : planning_node rt (initial_state request max_steps) new_world
                 = (inl e, mkWorld [mkCall TimeSleep [seconds] []] 0 0)).
  { unfold planning_node. unfold bind at 1.
    cbn [step_count initial_state]. change (0 =? 0) with true. cbv iota.
    change (tool_at 4) with (@inr Exn Tool Sleep). rewrite bind_lift.
    unfold bind at 1, on_device, zoom. cbn [invoke device_calls new_world].
    rewrite Hb, bind_lift. unfold sleep_tool, bind, call. rewrite He.
    reflexivity. }
  unfold execute_request, try_except. unfold bind at 1.
  cbn [graph_invoke run_node]. rewrite (bind_raises _ _ _ _ _ Hrun).
  reflexivity.
Qed.

Lemma failed_first_pause_fails_the_graph_witness :
  execute_request stuck 25 "do it" 10 new_world
  = (inr (GraphFailed
            ("Graph execution failed: "
               ++ exn_msg (mkExn "FailSafeException" "PyAutoGUI fail-safe triggered"))),
     mkWorld [mkCall TimeSleep [VFloat 1] []] 0 0).
Proof.
  apply (failed_first_pause_fails_the_graph stuck "do it" 10 (VFloat 1)
           (mkExn "FailSafeException" "PyAutoGUI fail-safe triggered") 24);
    reflexivity.
Defined.

(** X19.  A step whose ["function"] is not a string is outside the [try] of
    [_execute_step]: [.startswith] raises, the exception leaves
    [execution_node] with the results of the round so far, and the graph run
    fails, whatever limit it was given. *)
Theorem step_without_a_string_name_fails_the_graph rt st w p d f rest e limit :
  current_instructions st = VDict p ->
  dict_get p "steps" = Some (VList (VDict d :: rest)) ->
  dict_get d "function" = Some f ->
  py_as_str f = inl e ->
  interrupt_flag rt (flag_reads w) = false ->
  execution_node rt st w
  = (inl e, mkWorld (device_calls w) (plan_calls w) (S (flag_reads w))) /\
  graph_invoke rt (S limit) execution st w
  = (inl e, mkWorld (device_calls w) (plan_calls w) (S (flag_reads w))).
Proof.
  intros Hci Hsteps Hf Hstr Hflag.
  assert (Hrun : execution_node rt st w
                 = (inl e, mkWorld (device_calls w) (plan_calls w) (S (flag_reads w)))).
  { unfold execution_node. rewrite Hci.
    rewrite (dict_with_key_truthy _ _ _ Hsteps). cbn [negb].
    unfold bind at 1, lift at 1. cbn [py_get]. rewrite Hsteps.
    cbn [truthy negb]. unfold bind at 1, lift at 1. cbn [py_iter].
    cbn [execution_loop].
    unfold bind at 1, interrupt_requested. rewrite Hflag.
    unfold bind at 1, lift at 1. cbn [py_get]. rewrite Hf.
    unfold bind at 1, lift at 1.
    unfold bind at 1, lift at 1.
    unfold bind at 1, on_device, zoom. cbn [device_calls plan_calls flag_reads].
    unfold _execute_step. unfold bind at 1, lift at 1. rewrite Hstr.
    reflexivity. }
  split; [exact Hrun |].
  cbn [graph_invoke run_node]. rewrite (bind_raises _ _ _ _ _ Hrun). reflexivity.
Qed.

Lemma step_without_a_string_name_fails_the_graph_witness :
  execution_node plain (planned (plan [VDict [("function", VInt 5)]; press_enter]))
    new_world
  = (inl (AttributeError "object has no attribute 'startswith'"),
     mkWorld (device_calls new_world) (plan_calls new_world)
       (S (flag_reads new_world))) /\
  graph_invoke plain 25 execution
    (planned (plan [VDict [("function", VInt 5)]; press_enter])) new_world
  = (inl (AttributeError "object has no attribute 'startswith'"),
     mkWorld (device_calls new_world) (plan_calls new_world)
       (S (flag_reads new_world))).
Proof.
  apply (step_without_a_string_name_fails_the_graph plain
           (planned (plan [VDict [("function", VInt 5)]; press_enter])) new_world
           [("steps", VList [VDict [("function", VInt 5)]; press_enter])]
           [("function", VInt 5)] (VInt 5) [press_enter]
           (AttributeError "object has no attribute 'startswith'") 24);
    reflexivity.
Defined.

(** The loop when the flag is first found set at its read number [k]: the
    first [k] steps are dispatched and the loop returns the interruption. *)
Lemma execution_loop_interrupted rt step_count :
  forall k steps acc w,
    (k < List.length steps)%nat ->
    forallb well_formed_step (firstn k steps) = true ->
    (forall j, (j < k)%nat -> interrupt_flag rt (flag_reads w + j) = false) ->
    interrupt_flag rt (flag_reads w + k) = true ->
    exists rs w',
      execution_loop rt step_count steps acc w = (inr interrupted, w') /\
      plan_calls w' = plan_calls w /\
      dispatched_in_order rt (firstn k steps) rs (device_calls w) (device_calls w').
Proof.
  induction k as [| k IH]; intros steps acc w Hlen Hwf Hbefore Hat.
  - destruct steps as [| step rest]; [cbn in Hlen; lia |].
    rewrite Nat.add_0_r in Hat.
    exists [], (mkWorld (device_calls w) (plan_calls w) (S (flag_reads w))).
    cbn [execution_loop]. unfold bind at 1, interrupt_requested. rewrite Hat.
    split; [reflexivity |]. split; [reflexivity |]. constructor.
  - destruct steps as [| step rest]; [cbn in Hlen; lia |].
    cbn [firstn forallb] in Hwf. apply andb_prop in Hwf as [Hstep Hrest].
    destruct (well_formed_step_inv step Hstep) as (d & name & -> & Hname).
    pose proof (Hbefore 0%nat ltac:(lia)) as H0. rewrite Nat.add_0_r in H0.
    cbn [execution_loop].
    unfold bind at 1, interrupt_requested. rewrite H0.
    unfold bind at 1, lift at 1. rewrite Hname.
    unfold bind at 1, lift at 1. cbn [py_get].
    unfold bind at 1, lift at 1.
    unfold bind at 1.
    match goal with |- context [on_device ?m ?w0] =>
      destruct (on_device m w0) as [r w1] eqn:E end.
    destruct (on_device_frame _ _ _ _ E) as (Hp & Hf & Hrun).
    cbn [device_calls plan_calls flag_reads] in Hp, Hf, Hrun.
    match type of Hrun with _execute_step _ _ ?ps ?h = _ =>
      destruct (_execute_step_total rt name ps h) as (out & h' & Hout) end.
    rewrite Hout in Hrun. inversion Hrun as [[Hr Hh]]. subst r.
    assert (Hlen1 : (k < List.length rest)%nat) by (cbn in Hlen; lia).
    assert (Hbefore1 : forall j, (j < k)%nat ->
                                 interrupt_flag rt (flag_reads w1 + j) = false).
    { intros j Hj. rewrite Hf. replace (S (flag_reads w) + j)%nat
        with (flag_reads w + S j)%nat by lia. apply Hbefore. lia. }
    assert (Hat1 : interrupt_flag rt (flag_reads w1 + k) = true).
    { rewrite Hf. replace (S (flag_reads w) + k)%nat
        with (flag_reads w + S k)%nat by lia. exact Hat. }
    match goal with |- context [execution_loop rt step_count rest ?a w1] =>
      destruct (IH rest a w1 Hlen1 Hrest Hbefore1 Hat1)
        as (rs & w' & Hloop & Hplan & Hchain) end.
    exists (mkResult (VStr name) (param_or d "parameters" (VDict []))
              (param_or d "human_readable_justification" (VStr "")) out
              (negb (contains "failed" (lower out))) :: rs), w'.
    split; [exact Hloop |].
    split; [congruence |].
    cbn [firstn]. econstructor; [| rewrite Hh; exact Hchain].
    unfold dispatched, records, param_or.
    cbn [function parameters justification result success].
    rewrite Hout, Hh. repeat split; try reflexivity. exact Hname.
Qed.

(** X20.  Interruption in general: when the flag is first found set after [k]
    steps of the round have been dispatched, those [k] steps have acted on
    the device, yet the update [execution_node] returns carries no result:
    the state keeps the results and the step count it had before the
    round. *)
Theorem interrupted_round_keeps_no_record rt st w d steps k :
  current_instructions st = VDict d ->
  dict_get d "steps" = Some (VList steps) ->
  (k < List.length steps)%nat ->
  forallb well_formed_step (firstn k steps) = true ->
  (forall j, (j < k)%nat -> interrupt_flag rt (flag_reads w + j) = false) ->
  interrupt_flag rt (flag_reads w + k) = true ->
  exists rs w',
    execution_node rt st w = (inr interrupted, w') /\
    dispatched_in_order rt (firstn k steps) rs (device_calls w) (device_calls w') /\
    execution_results (apply_update st interrupted) = execution_results st /\
    step_count (apply_update st interrupted) = step_count st /\
    error_message (apply_update st interrupted)
    = Some "Execution interrupted by user".
Proof.
  intros Hci Hsteps Hlen Hwf Hbefore Hat.
  destruct (execution_loop_interrupted rt (step_count st) k steps [] w
              Hlen Hwf Hbefore Hat) as (rs & w' & Hloop & _ & Hchain).
  exists rs, w'. split; [| split; [exact Hchain | repeat split]].
  unfold execution_node. rewrite Hci.
  rewrite (dict_with_key_truthy _ _ _ Hsteps). cbn [negb].
  unfold bind at 1, lift at 1. cbn [py_get]. rewrite Hsteps.
  assert (Hl : truthy (VList steps) = true).
  { destruct steps; [cbn in Hlen; lia | reflexivity]. }
  rewrite Hl. cbn [negb]. unfold bind at 1, lift at 1. cbn [py_iter].
  exact Hloop.
Qed.

Lemma interrupted_round_keeps_no_record_witness :
  exists rs w',
    execution_node interrupted_after_two
      (planned (plan [click_10_20; write_hi; press_enter])) new_world
    = (inr interrupted, w') /\
    dispatched_in_order interrupted_after_two
      (firstn 2 [click_10_20; write_hi; press_enter]) rs
      (device_calls new_world) (device_calls w') /\
    execution_results
      (apply_update (planned (plan [click_10_20; write_hi; press_enter])) interrupted)
    = execution_results (planned (plan [click_10_20; write_hi; press_enter])) /\
    step_count
      (apply_update (planned (plan [click_10_20; write_hi; press_enter])) interrupted)
    = step_count (planned (plan [click_10_20; write_hi; press_enter])) /\
    error_message
      (apply_update (planned (plan [click_10_20; write_hi; press_enter])) interrupted)
    = Some "Execution interrupted by user".
Proof.
  apply (interrupted_round_keeps_no_record interrupted_after_two
           (planned (plan [click_10_20; write_hi; press_enter])) new_world
           [("steps", VList [click_10_20; write_hi; press_enter])]
           [click_10_20; write_hi; press_enter] 2).
  - reflexivity.
  - reflexivity.
  - simpl. lia.
  - reflexivity.
  - intros [| [| j]] Hj; [reflexivity | reflexivity | lia].
  - reflexivity.
Defined.

(** The last round of a budget: with at most one round left (a budget of
    zero or less included), one full round is still planned and executed
    before [validation_node] finds the budget spent. *)
Lemma last_round rt st w :
  pause_returns rt -> planner_never_done rt -> never_interrupted rt ->
  max_steps st <= step_count st + 1 ->
  exists st' w' h rs,
    runs_to rt 4 planning st w (inr st') w' /\
    step_count st' = step_count st + 1 /\
    plan_calls w' = S (plan_calls w) /\
    execution_results st' = rs /\
    rs <> [] /\
    (exists steps, dispatched_in_order rt steps rs h (device_calls w')) /\
    error_message st' = Some "Maximum steps exceeded".
Proof.
  intros Hpause Hplan Hflag Hleft.
  destruct (planning_node_plans rt st w Hpause Hplan)
    as (i & w1 & Hrun1 & (d & steps & -> & Hsteps & Hne & Hwf & Hdone) & Hp1).
  set (st1 := apply_update st
                (mkUpdate [SystemMessage; HumanMessage] (Some (VDict d))
                   None None None None None)).
  destruct (execution_node_runs rt st1 w1 d steps Hflag eq_refl Hsteps Hne Hwf)
    as (rs & w2 & Hrun2 & Hp2 & Hchain).
  set (st2 := apply_update st1
                (mkUpdate [] None (Some rs) (Some (step_count st1 + 1))
                   None None None)).
  pose proof (validation_node_unfinished st2 d w2 eq_refl Hdone) as Hrun3.
  assert (Hmax : (max_steps st2 <=? step_count st2) = true).
  { apply Z.leb_le. cbn. lia. }
  rewrite Hmax in Hrun3.
  set (st3 := apply_update st2
                (mkUpdate [] None None None None (Some true)
                   (Some "Maximum steps exceeded"))).
  assert (Herr3 : has_error st3 = true) by reflexivity.
  eexists _, w2, (device_calls w1), rs.
  split; [| split; [| split; [| split; [| split; [| split]]]]].
  - eapply runs_on; [exact Hrun1 | reflexivity |].
    eapply runs_on; [exact Hrun2 | reflexivity |].
    eapply runs_on; [exact Hrun3 | |].
    { etransitivity;
        [apply bind_returns, (_should_continue_error rt st3 w2 Herr3)
        | reflexivity]. }
    eapply runs_end; [apply (response_node_error st3 w2 Herr3) | reflexivity].
  - reflexivity.
  - rewrite Hp2, Hp1. reflexivity.
  - reflexivity.
  - inversion Hchain; subst; congruence.
  - exists steps. exact Hchain.
  - reflexivity.
Qed.

(** X21.  A budget of zero (or a negative one) does not prevent action: the
    budget is only compared after a round, so one round is planned and its
    steps are dispatched before the run ends on "Maximum steps exceeded". *)
Theorem spent_budget_still_runs_one_round rt request max_steps :
  pause_returns rt -> planner_never_done rt -> never_interrupted rt ->
  max_steps <= 1 ->
  exists st w h,
    (forall limit, (4 <= limit)%nat ->
       execute_request rt limit request max_steps new_world = (inr (Final st), w)) /\
    step_count st = 1 /\
    plan_calls w = 1%nat /\
    execution_results st <> [] /\
    (exists steps,
       dispatched_in_order rt steps (execution_results st) h (device_calls w)) /\
    error_message st = Some "Maximum steps exceeded".
Proof.
  intros Hpause Hplan Hflag Hle.
  destruct (last_round rt (initial_state request max_steps) new_world
              Hpause Hplan Hflag)
    as (st & w & h & rs & Hruns & Hsc & Hpc & Hrs & Hne & Hchain & Hem).
  { cbn. lia. }
  subst rs. exists st, w, h.
  split; [| split; [exact Hsc | split; [exact Hpc | split; [exact Hne | split]]]];
    [| exact Hchain | exact Hem].
  intros limit Hlim. unfold execute_request, try_except.
  rewrite (bind_returns _ _ _ _ _ (runs_to_invoke _ _ _ _ _ _ _ Hruns limit Hlim)).
  reflexivity.
Qed.

Lemma never_done_unfinished : planner_never_done never_done.
Proof.
  intros k request step. eexists. split; [reflexivity |].
  exists [("steps", VList [press_enter])], [press_enter].
  repeat split; try reflexivity. discriminate.
Qed.

Lemma spent_budget_still_runs_one_round_witness :
  exists st w h,
    (forall limit, (4 <= limit)%nat ->
       execute_request never_done limit "do it" 0 new_world = (inr (Final st), w)) /\
    step_count st = 1 /\
    plan_calls w = 1%nat /\
    execution_results st <> [] /\
    (exists steps,
       dispatched_in_order never_done steps (execution_results st) h (device_calls w)) /\
    error_message st = Some "Maximum steps exceeded".
Proof.
  apply (spent_budget_still_runs_one_round never_done "do it" 0).
  - apply runtime_pause.
  - exact never_done_unfinished.
  - intros k. reflexivity.
  - lia.
Defined.

(** X22.  The step budget in general: with a budget of [n + 1], a planner that
    never finishes and no interrupt, the run plans exactly [n + 1] times
    and needs [4 * (n + 1)] node executions; any limit of at least that
    lets it end on "Maximum steps exceeded". *)
Theorem budget_of_n_takes_n_rounds rt request n :
  pause_returns rt -> planner_never_done rt -> never_interrupted rt ->
  exists st w ms,
    (forall limit, (4 * S n <= limit)%nat ->
       execute_request rt limit request (Z.of_nat (S n)) new_world
       = (inr (Final st), w)) /\
    step_count st = Z.of_nat (S n) /\
    plan_calls w = S n /\
    is_complete st = true /\
    error_message st = Some "Maximum steps exceeded" /\
    messages st
    = (ms ++ [AIMessage
                (VStr "Task completed with error: Maximum steps exceeded")])%list.
Proof.
  intros Hpause Hplan Hflag.
  destruct (budget_is_exhausted rt Hpause Hplan Hflag n
              (initial_state request (Z.of_nat (S n))) new_world eq_refl)
    as (st & w & ms & Hruns & Hsc & Hpc & Hic & Hem & Hms).
  { cbn [max_steps step_count initial_state]. lia. }
  exists st, w, ms.
  split; [| split; [exact Hsc | split; [exact Hpc | split; [exact Hic | split]]]];
    [| exact Hem | exact Hms].
  intros limit Hle. unfold execute_request, try_except.
  rewrite (bind_returns _ _ _ _ _ (runs_to_invoke _ _ _ _ _ _ _ Hruns limit Hle)).
  reflexivity.
Qed.

Lemma budget_of_n_takes_n_rounds_witness :
  exists st w ms,
    (forall limit, (4 * 5 <= limit)%nat ->
       execute_request never_done limit "do it" (Z.of_nat 5) new_world
       = (inr (Final st), w)) /\
    step_count st = Z.of_nat 5 /\
    plan_calls w = 5%nat /\
    is_complete st = true /\
    error_message st = Some "Maximum steps exceeded" /\
    messages st
    = (ms ++ [AIMessage
                (VStr "Task completed with error: Maximum steps exceeded")])%list.
Proof.
  apply (budget_of_n_takes_n_rounds never_done "do it" 4).
  - apply runtime_pause.
  - exact never_done_unfinished.
  - intros k. reflexivity.
Defined.

(** X23.  A planning failure in a later round does not stop the round: the
    failed [planning_node] leaves [current_instructions] as it was, and
    [execution_node] dispatches the steps of the previous plan once more. *)
Theorem failed_planning_replays_the_previous_plan rt st w d steps e :
  pause_returns rt -> never_interrupted rt ->
  planner rt (plan_calls w) (user_request st) (step_count st) = inl e ->
  current_instructions st = VDict d ->
  dict_get d "steps" = Some (VList steps) ->
  steps <> [] ->
  forallb well_formed_step steps = true ->
  exists w1 rs w2,
    planning_node rt st w = (inr (planning_update (inl e)), w1) /\
    error_message (apply_update st (planning_update (inl e)))
    = Some ("Planning failed: " ++ exn_msg e) /\
    execution_node rt (apply_update st (planning_update (inl e))) w1
    = (inr (mkUpdate [] None (Some rs) (Some (step_count st + 1)) None None None),
       w2) /\
    dispatched_in_order rt steps rs (device_calls w1) (device_calls w2).
Proof.
  intros Hpause Hflag Hans Hci Hsteps Hne Hwf.
  destruct (planning_node_answer rt st w Hpause) as (w1 & Hrun1 & _ & _).
  rewrite Hans in Hrun1.
  destruct (execution_node_runs rt (apply_update st (planning_update (inl e))) w1
              d steps Hflag) as (rs & w2 & Hrun2 & _ & Hchain);
    [cbn; exact Hci | exact Hsteps | exact Hne | exact Hwf |].
  exists w1, rs, w2. split; [exact Hrun1 |]. split; [reflexivity |].
  split; [exact Hrun2 | exact Hchain].
Qed.

Lemma failed_planning_replays_the_previous_plan_witness :
  let st := mkState [SystemMessage; HumanMessage] "do it" 1 10 (plan [press_enter])
              [] None false None in
  let w := mkWorld [] 1 1 in
  let e := mkExn "ConnectionError" "planner unreachable" in
  exists w1 rs w2,
    planning_node planner_fails_second st w = (inr (planning_update (inl e)), w1) /\
    error_message (apply_update st (planning_update (inl e)))
    = Some ("Planning failed: " ++ exn_msg e) /\
    execution_node planner_fails_second (apply_update st (planning_update (inl e))) w1
    = (inr (mkUpdate [] None (Some rs) (Some (step_count st + 1)) None None None),
       w2) /\
    dispatched_in_order planner_fails_second [press_enter] rs
      (device_calls w1) (device_calls w2).
Proof.
  intros st w e.
  apply (failed_planning_replays_the_previous_plan planner_fails_second st w
           [("steps", VList [press_enter])] [press_enter] e).
  - apply runtime_pause.
  - intros k. reflexivity.
  - reflexivity.
  - reflexivity.
  - reflexivity.
  - discriminate.
  - reflexivity.
Defined.

(** A truthy ["done"] that is not acceptable content, [True] for one: the
    constructor of the message raises in [validation_node] and the run ends
    as a failure of the graph. *)
Example unacceptable_done_fails_the_graph :
  fst (execute_request
         (runtime
            (constant_planner
               (VDict [("steps", VList [press_enter]); ("done", VBool true)]))
            never)
         25 "do it" 10 new_world)
  = inr (GraphFailed "Graph execution failed: Input should be a valid string").
Proof. vm_compute. reflexivity. Qed.

End NodesMore.
